(** * GTFS parser of the ZIM Slupsk integration: a shallow embedding

    Source: [custom_components/zim_slupsk/gtfs_parser.py], class [GTFSParser].

    Conventions of the embedding.
    - A CSV row produced by [csv.DictReader] is a Python dict from column
      names to values; a value is a string, or [None] when the row is shorter
      than the header.  A row is a [gmap string (option string)]: an absent
      key is a missing column, the value [None] is Python's [None].
    - Python exceptions are results [Raise e] of the error monad [result].
    - Dicts whose iteration order is observable ([self.data["trips"]],
      [self.data["stops"]]) are insertion-ordered association lists.
    - A [date] is its proleptic Gregorian ordinal ([date.toordinal()]); a
      [datetime] of the default time zone is its wall-clock reading in
      microseconds.  [dt_util.as_local] attaches the default time zone to a
      naive reading and keeps its wall-clock fields.  Two aware datetimes
      that carry the same [tzinfo] object are compared by Python on their
      wall-clock fields, which is what every comparison on [dt_util.now()]
      and [dt_util.as_local(...)] values does.
    - [strptime] follows the regular expressions of CPython's [_strptime]
      on ASCII digits. *)

From Stdlib Require Import ZArith Ascii String.
From stdpp Require Import base option list gmap strings sorting.

Local Open Scope string_scope.
Local Open Scope list_scope.
Local Open Scope Z_scope.

(** ** Exceptions *)

Inductive exc : Set := KeyError | ValueError | TypeError | AttributeError.

Inductive result (A : Type) : Type :=
  | Ok (a : A)
  | Raise (e : exc).
Arguments Ok {A} a.
Arguments Raise {A} e.

#[global] Instance result_ret : MRet result := λ A a, Ok a.
#[global] Instance result_bind : MBind result := λ A B f m,
  match m with
  | Ok a => f a
  | Raise e => Raise e
  end.

#[global] Instance exc_eq_dec : EqDecision exc.
Proof. solve_decision. Defined.

(** ** Rows and dicts *)

Abbreviation Row := (gmap string (option string)).

(** [row.get(k)] *)
Definition row_get (row : Row) (k : string) : option string :=
  match row !! k with
  | Some v => v
  | None => None
  end.

(** [row.get(k, d)] with a string default *)
Definition row_get_default (row : Row) (k : string) (d : string) : option string :=
  match row !! k with
  | Some v => v
  | None => Some d
  end.

(** [row[k]] *)
Definition row_item (row : Row) (k : string) : result (option string) :=
  match row !! k with
  | Some v => Ok v
  | None => Raise KeyError
  end.

(** [self.data[k]] for a table that may not have been loaded *)
Definition data_item {A} (table : option A) : result A :=
  match table with
  | Some t => Ok t
  | None => Raise KeyError
  end.

(** An insertion-ordered dict keyed by a column value. *)
Abbreviation pydict := (list (option string * Row)).

Fixpoint dict_lookup (k : option string) (d : pydict) : option Row :=
  match d with
  | [] => None
  | (k', v) :: rest => if decide (k' = k) then Some v else dict_lookup k rest
  end.

(** [d[k] = v]: an existing key keeps its position, a new key goes last. *)
Fixpoint dict_set (k : option string) (v : Row) (d : pydict) : pydict :=
  match d with
  | [] => [(k, v)]
  | (k', v') :: rest =>
      if decide (k' = k) then (k', v) :: rest else (k', v') :: dict_set k v rest
  end.

(** ** Calendar arithmetic, after CPython's [_pydatetime] *)

Definition is_leap (year : Z) : bool :=
  (year mod 4 =? 0) && (negb (year mod 100 =? 0) || (year mod 400 =? 0)).

Definition days_before_year (year : Z) : Z :=
  let y := year - 1 in y * 365 + y / 4 - y / 100 + y / 400.

Definition DAYS_IN_MONTH (month : Z) : Z :=
  match month with
  | 1 => 31 | 2 => 28 | 3 => 31 | 4 => 30 | 5 => 31 | 6 => 30
  | 7 => 31 | 8 => 31 | 9 => 30 | 10 => 31 | 11 => 30 | 12 => 31
  | _ => -1
  end.

Definition DAYS_BEFORE_MONTH (month : Z) : Z :=
  match month with
  | 1 => 0 | 2 => 31 | 3 => 59 | 4 => 90 | 5 => 120 | 6 => 151
  | 7 => 181 | 8 => 212 | 9 => 243 | 10 => 273 | 11 => 304 | 12 => 334
  | _ => -1
  end.

Definition days_in_month (year month : Z) : Z :=
  if (month =? 2) && is_leap year then 29 else DAYS_IN_MONTH month.

Definition days_before_month (year month : Z) : Z :=
  DAYS_BEFORE_MONTH month + (if (2 <? month) && is_leap year then 1 else 0).

Definition ymd2ord (year month day : Z) : Z :=
  days_before_year year + days_before_month year month + day.

Definition DI400Y : Z := 146097.
Definition DI100Y : Z := 36524.
Definition DI4Y : Z := 1461.

Definition ord2ymd (n : Z) : Z * Z * Z :=
  let n := n - 1 in
  let n400 := n / DI400Y in
  let n := n mod DI400Y in
  let year := n400 * 400 + 1 in
  let n100 := n / DI100Y in
  let n := n mod DI100Y in
  let n4 := n / DI4Y in
  let n := n mod DI4Y in
  let n1 := n / 365 in
  let n := n mod 365 in
  let year := year + n100 * 100 + n4 * 4 + n1 in
  if (n1 =? 4) || (n100 =? 4) then (year - 1, 12, 31)
  else
    let leapyear := (n1 =? 3) && (negb (n4 =? 24) || (n100 =? 3)) in
    let month := Z.shiftr (n + 50) 5 in
    let preceding :=
      DAYS_BEFORE_MONTH month + (if (2 <? month) && leapyear then 1 else 0) in
    if n <? preceding then
      let month := month - 1 in
      let preceding :=
        preceding
        - (DAYS_IN_MONTH month + (if (month =? 2) && leapyear then 1 else 0)) in
      (year, month, n - preceding + 1)
    else (year, month, n - preceding + 1).

(** [date.weekday()]: Monday is 0, Sunday is 6. *)
Definition weekday (d : Z) : Z := (d + 6) mod 7.

(** ** Formatting and parsing of dates and times *)

Definition digit (d : Z) : ascii := ascii_of_N (48 + Z.to_N d).

Definition zfill2 (n : Z) (tail : string) : string :=
  String (digit (n / 10 mod 10)) (String (digit (n mod 10)) tail).

Definition zfill4 (n : Z) (tail : string) : string :=
  String (digit (n / 1000 mod 10)) (String (digit (n / 100 mod 10)) (zfill2 n tail)).

(** [d.strftime("%Y%m%d")], for the four-digit years 1000..9999. *)
Definition strftime_Ymd (d : Z) : string :=
  let '(y, m, dd) := ord2ymd d in zfill4 y (zfill2 m (zfill2 dd "")).

Definition digit_val (a : ascii) : option Z :=
  let n := Z.of_N (N_of_ascii a) in
  if (48 <=? n) && (n <=? 57) then Some (n - 48) else None.

(** The directives of [_strptime] are regular expressions with ordered
    alternatives; a directive yields its candidate matches in that order,
    each with the rest of the input, and the matcher backtracks over them. *)
Definition two_digits (ok : Z → Z → bool) (s : string) : list (Z * string) :=
  match s with
  | String a (String b r) =>
      match digit_val a, digit_val b with
      | Some x, Some y => if ok x y then [(10 * x + y, r)] else []
      | _, _ => []
      end
  | _ => []
  end.

Definition one_digit (ok : Z → bool) (s : string) : list (Z * string) :=
  match s with
  | String a r =>
      match digit_val a with
      | Some x => if ok x then [(x, r)] else []
      | None => []
      end
  | _ => []
  end.

Definition literal (c : ascii) (s : string) : list string :=
  match s with
  | String a r => if decide (a = c) then [r] else []
  | _ => []
  end.

(** [%H]: [2[0-3]|[0-1]\d|\d] *)
Definition re_H (s : string) : list (Z * string) :=
  two_digits (λ x y, (x =? 2) && (y <=? 3)) s
  ++ two_digits (λ x _, x <=? 1) s
  ++ one_digit (λ _, true) s.

(** [%M]: [[0-5]\d|\d] *)
Definition re_M (s : string) : list (Z * string) :=
  two_digits (λ x _, x <=? 5) s ++ one_digit (λ _, true) s.

(** [%S]: [6[0-1]|[0-5]\d|\d] *)
Definition re_S (s : string) : list (Z * string) :=
  two_digits (λ x y, (x =? 6) && (y <=? 1)) s
  ++ two_digits (λ x _, x <=? 5) s
  ++ one_digit (λ _, true) s.

(** [%Y]: [\d\d\d\d] *)
Definition re_Y (s : string) : list (Z * string) :=
  '(hi, r) ← two_digits (λ _ _, true) s;
  '(lo, r') ← two_digits (λ _ _, true) r;
  [(100 * hi + lo, r')].

(** [%m]: [1[0-2]|0[1-9]|[1-9]] *)
Definition re_m (s : string) : list (Z * string) :=
  two_digits (λ x y, (x =? 1) && (y <=? 2)) s
  ++ two_digits (λ x y, (x =? 0) && (1 <=? y)) s
  ++ one_digit (λ x, 1 <=? x) s.

(** [%d]: [3[0-1]|[1-2]\d|0[1-9]|[1-9]| [1-9]] *)
Definition re_d (s : string) : list (Z * string) :=
  two_digits (λ x y, (x =? 3) && (y <=? 1)) s
  ++ two_digits (λ x _, (1 <=? x) && (x <=? 2)) s
  ++ two_digits (λ x y, (x =? 0) && (1 <=? y)) s
  ++ one_digit (λ x, 1 <=? x) s
  ++ (r ← literal " " s; one_digit (λ x, 1 <=? x) r).

Definition MICROS : Z := 1000000.
Definition DAY_MICROS : Z := 86400 * MICROS.

(** [datetime.strptime(s, "%H:%M:%S").time()], as microseconds after
    midnight.  The first match of the pattern is taken; input left over
    after it, or a second outside 0..59, is a [ValueError]. *)
Definition strptime_HMS (s : string) : result Z :=
  let found :=
    '(h, r1) ← re_H s;
    r2 ← literal ":" r1;
    '(m, r3) ← re_M r2;
    r4 ← literal ":" r3;
    '(sec, r5) ← re_S r4;
    [(h, m, sec, r5)] in
  match found with
  | (h, m, sec, rest) :: _ =>
      if decide (rest = "") then
        if sec <=? 59 then Ok ((h * 3600 + m * 60 + sec) * MICROS)
        else Raise ValueError
      else Raise ValueError
  | [] => Raise ValueError
  end.

(** [datetime.strptime(s, "%Y%m%d").date()] as an ordinal. *)
Definition strptime_Ymd (s : string) : result Z :=
  let found :=
    '(y, r1) ← re_Y s;
    '(m, r2) ← re_m r1;
    '(d, r3) ← re_d r2;
    [(y, m, d, r3)] in
  match found with
  | (y, m, d, rest) :: _ =>
      if decide (rest = "") then
        if (1 <=? y) && (d <=? days_in_month y m) then Ok (ymd2ord y m d)
        else Raise ValueError
      else Raise ValueError
  | [] => Raise ValueError
  end.

(** [strptime] applied to a cell: [None] is not a string. *)
Definition strptime_cell (parse : string → result Z) (v : option string) : result Z :=
  match v with
  | Some s => parse s
  | None => Raise TypeError
  end.

(** ** The parser object *)

(** [self.data]: each table is present once [load_data] has stored it. *)
Record GTFSParser : Type := {
  stops : option pydict;
  stop_times : option (list Row);
  trips : option pydict;
  calendar : option (list Row);
  calendar_dates : option (list Row)
}.

(** ** [service_is_active_on_date] *)

(** The loop over the matching [calendar_dates] rows. *)
Fixpoint exception_verdict (cdates : list Row) : result bool :=
  match cdates with
  | [] => Ok false
  | row :: rest =>
      t ← row_item row "exception_type";
      if decide (t = Some "1") then Ok true
      else if decide (t = Some "2") then Ok false
      else exception_verdict rest
  end.

Definition day_field (wd : Z) : string :=
  match wd with
  | 0 => "monday" | 1 => "tuesday" | 2 => "wednesday" | 3 => "thursday"
  | 4 => "friday" | 5 => "saturday" | _ => "sunday"
  end.

Definition matching_exceptions (service_id : option string) (cdate_str : string)
    (rows : list Row) : list Row :=
  filter (λ row, row_get row "service_id" = service_id
                 ∧ row_get row "date" = Some cdate_str) rows.

Definition calendar_rows (service_id : option string) (rows : list Row) : list Row :=
  filter (λ c, row_get c "service_id" = service_id) rows.

(** The statements after [row = crows[0]]. *)
Definition calendar_verdict (row : Row) (check_date : Z) : result bool :=
  start_cell ← row_item row "start_date";
  start_date ← strptime_cell strptime_Ymd start_cell;
  end_cell ← row_item row "end_date";
  end_date ← strptime_cell strptime_Ymd end_cell;
  if negb ((start_date <=? check_date) && (check_date <=? end_date))
  then Ok false
  else
    if decide (row_get row (day_field (weekday check_date)) = Some "1")
    then Ok true
    else Ok false.

Definition service_is_active_on_date (self : GTFSParser)
    (service_id : option string) (check_date : Z) : result bool :=
  let cdate_str := strftime_Ymd check_date in
  all_cdates ← data_item (calendar_dates self);
  let cdates := matching_exceptions service_id cdate_str all_cdates in
  match cdates with
  | _ :: _ => exception_verdict cdates
  | [] =>
      all_crows ← data_item (calendar self);
      match calendar_rows service_id all_crows with
      | [] => Ok false
      | row :: _ => calendar_verdict row check_date
      end
  end.

(** ** Helpers shared by the two queries *)

(** [s.replace(old, new)] for one-character [old] and [new]. *)
Fixpoint str_replace (old new : ascii) (s : string) : string :=
  match s with
  | EmptyString => EmptyString
  | String a r => String (if decide (a = old) then new else a) (str_replace old new r)
  end.

(** [dt.strftime("%Y-%m-%d %H:%M:%S")] *)
Definition strftime_YmdHMS (dt : Z) : string :=
  let '(y, m, d) := ord2ymd (dt / DAY_MICROS) in
  let t := dt mod DAY_MICROS / MICROS in
  zfill4 y (String "-" (zfill2 m (String "-" (zfill2 d (String " "
    (zfill2 (t / 3600) (String ":" (zfill2 (t / 60 mod 60) (String ":"
      (zfill2 (t mod 60) "")))))))))).

(** [list.sort(key=...)] is a stable sort; the stable insertion sort
    computes the same list. *)
Fixpoint insert_by {A} (key : A → Z) (x : A) (l : list A) : list A :=
  match l with
  | [] => [x]
  | y :: r => if key x <=? key y then x :: y :: r else y :: insert_by key x r
  end.

Definition sort_by {A} (key : A → Z) (l : list A) : list A :=
  foldr (insert_by key) [] l.

(** A [for] loop whose body appends to one list and may raise: the items
    appended by each iteration, in order, up to the first exception. *)
Fixpoint for_each {A B} (body : A → result (list B)) (l : list A) : result (list B) :=
  match l with
  | [] => Ok []
  | x :: rest =>
      ys ← body x;
      zs ← for_each body rest;
      Ok (ys ++ zs)
  end.

(** [datetime.strptime(...)] under [try ... except ValueError: continue]. *)
Definition parse_or_skip (cell : option string) : result (option Z) :=
  match strptime_cell strptime_HMS cell with
  | Ok t => Ok (Some t)
  | Raise ValueError => Ok None
  | Raise e => Raise e
  end.

(** [d.get("trip_headsign", default)] followed by a [str] method. *)
Definition headsign (trip : Row) (d : string) (method : string → string) : result string :=
  match row_get_default trip "trip_headsign" d with
  | Some h => Ok (method h)
  | None => Raise AttributeError
  end.

(** ** [get_next_departures] *)

Record departure : Type := {
  dep_line : option string;
  dep_direction : string;
  dep_service_id : option string;
  dep_departure_time : string;
  dep_datetime : Z
}.

Abbreviation by_line := (gmap (option string) (list departure)).

(** The body of the loop over [self.data["stop_times"]]. *)
Definition stop_time_departure (trips_table : pydict) (today_date : Z)
    (stop_id : string) (row : Row) : result (list departure) :=
  sid ← row_item row "stop_id";
  if decide (sid = Some stop_id) then
    trip_id ← row_item row "trip_id";
    let trip_info := default ∅ (dict_lookup trip_id trips_table) in
    let line_number := row_get_default trip_info "route_id" "Nieznana" in
    trip_headsign ← headsign trip_info "" (str_replace "/" " ");
    let service_id := row_get_default trip_info "service_id" "" in
    departure_time ← row_item row "departure_time";
    parsed ← parse_or_skip departure_time;
    match parsed with
    | None => Ok []
    | Some dep_time =>
        Ok [ {| dep_line := line_number;
                dep_direction := trip_headsign;
                dep_service_id := service_id;
                dep_departure_time := default "" departure_time;
                dep_datetime := today_date * DAY_MICROS + dep_time |} ]
    end
  else Ok [].

(** [m.setdefault(k, []).append(dep)] *)
Definition setdefault_append (m : by_line) (k : option string) (dep : departure) : by_line :=
  <[k := (default [] (m !! k) ++ [dep])]> m.

(** The loop that fills [future_today_by_line]. *)
Fixpoint future_today (self : GTFSParser) (now today_date : Z)
    (deps : list departure) (acc : by_line) : result by_line :=
  match deps with
  | [] => Ok acc
  | dep :: rest =>
      if now <=? dep_datetime dep then
        active ← service_is_active_on_date self (dep_service_id dep) today_date;
        if (active : bool)
        then future_today self now today_date rest (setdefault_append acc (dep_line dep) dep)
        else future_today self now today_date rest acc
      else future_today self now today_date rest acc
  end.

(** [newdep]: the copy of [dep] moved to [tomorrow] at the same time of day. *)
Definition shift_to (tomorrow : Z) (dep : departure) : departure :=
  let dt := tomorrow * DAY_MICROS + dep_datetime dep mod DAY_MICROS in
  {| dep_line := dep_line dep;
     dep_direction := dep_direction dep;
     dep_service_id := dep_service_id dep;
     dep_departure_time := strftime_YmdHMS dt;
     dep_datetime := dt |}.

(** The loop that fills [tomorrow_map]. *)
Fixpoint tomorrow_loop (self : GTFSParser) (tomorrow : Z)
    (deps : list departure) (acc : by_line) : result by_line :=
  match deps with
  | [] => Ok acc
  | dep :: rest =>
      let newdep := shift_to tomorrow dep in
      active ← service_is_active_on_date self (dep_service_id dep) tomorrow;
      if (active : bool)
      then tomorrow_loop self tomorrow rest (setdefault_append acc (dep_line dep) newdep)
      else tomorrow_loop self tomorrow rest acc
  end.

(** [for dep in deps: next_deps.append(dep); if len(next_deps) >= 2: break] *)
Fixpoint append_upto2 (next_deps : list departure) (deps : list departure) : list departure :=
  match deps with
  | [] => next_deps
  | dep :: rest =>
      let next_deps := (next_deps ++ [dep]) in
      if decide (2 ≤ length next_deps)%nat then next_deps
      else append_upto2 next_deps rest
  end.

(** The body of the loop over [all_lines], up to the test [if next_deps]. *)
Definition next_deps_of (future_today_by_line tomorrow_map : by_line)
    (line : option string) : list departure :=
  let next_deps :=
    match future_today_by_line !! line with
    | Some deps => append_upto2 [] deps
    | None => []
    end in
  if decide (length next_deps < 2)%nat then
    match tomorrow_map !! line with
    | Some deps => append_upto2 next_deps deps
    | None => next_deps
    end
  else next_deps.

Definition collect_results (future_today_by_line tomorrow_map : by_line) : by_line :=
  let all_lines : gset (option string) :=
    dom future_today_by_line ∪ dom tomorrow_map in
  set_fold (λ line results,
              match next_deps_of future_today_by_line tomorrow_map line with
              | [] => results
              | next_deps => <[line := next_deps]> results
              end) ∅ all_lines.

(** [now] is the reading of [dt_util.now()]. *)
Definition get_next_departures (self : GTFSParser) (now : Z) (stop_id : string)
    : result by_line :=
  match stop_times self, trips self with
  | Some stop_times_table, Some trips_table =>
      let today_date := now / DAY_MICROS in
      departures_all ←
        for_each (stop_time_departure trips_table today_date stop_id) stop_times_table;
      let departures_all := sort_by dep_datetime departures_all in
      future_today_by_line ← future_today self now today_date departures_all ∅;
      let tomorrow := today_date + 1 in
      tomorrow_map ← tomorrow_loop self tomorrow departures_all ∅;
      let future_today_by_line := sort_by dep_datetime <$> future_today_by_line in
      let tomorrow_map := sort_by dep_datetime <$> tomorrow_map in
      Ok (collect_results future_today_by_line tomorrow_map)
  | _, _ => Ok ∅
  end.

(** ** [get_departures_for_week] *)

(** An aware datetime rendered by [isoformat()]: the wall-clock reading and
    the UTC offset printed after it, both in microseconds.
    [datetime.fromisoformat] reads the same two components back. *)
Record isotime : Type := {
  wall : Z;
  utcoff : Z
}.

(** The instant that orders two [fromisoformat] values, each of which
    carries a fixed-offset [tzinfo] of its own. *)
Definition instant (t : isotime) : Z := wall t - utcoff t.

(** A value read from a stop row with a default that need not be a string. *)
Inductive pyval : Type :=
  | PyStr (s : string)
  | PyNone
  | PyFloat0.

(** [stop.get(k, d)] *)
Definition stop_get (stop : Row) (k : string) (d : pyval) : pyval :=
  match stop !! k with
  | Some (Some s) => PyStr s
  | Some None => PyNone
  | None => d
  end.

Record event : Type := {
  title : string;
  start : isotime;
  end_ : isotime;
  description : string;
  ev_line : string;
  latitude : pyval;
  longitude : pyval;
  stop_name : pyval;
  stop_code : pyval
}.

Section WeekSchedule.
(** The default time zone: the UTC offset [as_local] attaches to a
    wall-clock reading. *)
Variable utcoffset : Z → Z.
(** [str.capitalize] *)
Variable capitalize : string → string.

Definition isoformat (dt : Z) : isotime := {| wall := dt; utcoff := utcoffset dt |}.

(** f"Linia {line} → {trip_headsign}" *)
Definition event_title (line trip_headsign : string) : string :=
  "Linia " +:+ line +:+ " → " +:+ trip_headsign.

(** The body of the loop over [self.data.get("stop_times", [])]. *)
Definition stop_time_event (self : GTFSParser) (now : Z) (line stop_id : string)
    (current_day : Z) (trip_id : option string) (trip : Row) (stop_time : Row)
    : result (list event) :=
  tid ← row_item stop_time "trip_id";
  if decide (tid = trip_id) then
    sid ← row_item stop_time "stop_id";
    if decide (sid = Some stop_id) then
      departure_time ← row_item stop_time "departure_time";
      parsed ← parse_or_skip departure_time;
      match parsed with
      | None => Ok []
      | Some dep_time =>
          let dep_datetime := current_day * DAY_MICROS + dep_time in
          let end_datetime := dep_datetime + 60 * MICROS in
          if end_datetime <? now then Ok []
          else
            trip_headsign ←
              headsign trip "Nieznany kierunek"
                (λ h, str_replace "/" " " (capitalize h));
            stops_table ← data_item (stops self);
            stop ← data_item (dict_lookup (Some stop_id) stops_table);
            Ok [ {| title := event_title line trip_headsign;
                    start := isoformat dep_datetime;
                    end_ := isoformat end_datetime;
                    description := event_title line trip_headsign;
                    ev_line := line;
                    latitude := stop_get stop "stop_lat" PyFloat0;
                    longitude := stop_get stop "stop_lon" PyFloat0;
                    stop_name := stop_get stop "stop_name" (PyStr "Nieznany");
                    stop_code := stop_get stop "stop_code" (PyStr "") |} ]
      end
    else Ok []
  else Ok [].

(** The body of the loop over [self.data["trips"].items()]. *)
Definition trip_events (self : GTFSParser) (now : Z) (line stop_id : string)
    (current_day : Z) (item : option string * Row) : result (list event) :=
  let '(trip_id, trip) := item in
  if decide (row_get trip "route_id" = Some line) then
    let service_id := row_get trip "service_id" in
    active ← service_is_active_on_date self service_id current_day;
    if (active : bool) then
      for_each (stop_time_event self now line stop_id current_day trip_id trip)
               (default [] (stop_times self))
    else Ok []
  else Ok [].

(** The body of the loop over [range(7)]. *)
Definition day_events (self : GTFSParser) (today now : Z) (line stop_id : string)
    (day_offset : Z) : result (list event) :=
  let current_day := today + day_offset in
  trips_table ← data_item (trips self);
  for_each (trip_events self now line stop_id current_day) trips_table.

(** [now_today] and [now] are the two successive readings of
    [dt_util.now()]: the first gives [today], the second is [now]. *)
Definition get_departures_for_week (self : GTFSParser) (now_today now : Z)
    (line stop_id : string) : result (list event) :=
  let today := now_today / DAY_MICROS in
  events ← for_each (day_events self today now line stop_id) (seqZ 0 7);
  Ok (sort_by (λ x, instant (start x)) events).

End WeekSchedule.

(** ** [load_data] *)

(** What the code sees of the file system.  A table is the list of rows
    [csv.DictReader] yields; [None] for a table stands for a file whose
    reading, decoding or parsing raises. *)
Record Env : Type := {
  (** [GTFS_FILE_PATH]: absent, not openable as a ZIP archive, or the
      archive's members by name *)
  gtfs_file : option (option (gmap string (option (list Row))));
  (** [calendar.txt] in the folder of the archive *)
  calendar_file : option (option (list Row))
}.

Definition required_files : list string := ["stops.txt"; "stop_times.txt"; "trips.txt"].

(** [{row[key]: row for row in reader}] *)
Fixpoint index_by (key : string) (rows : list Row) (acc : pydict) : result pydict :=
  match rows with
  | [] => Ok acc
  | row :: rest =>
      k ← row_item row key;
      index_by key rest (dict_set k row acc)
  end.

(** [z.open(name)] read and parsed, for a name known to be in the archive. *)
Definition read_member (z : gmap string (option (list Row))) (name : string)
    : result (list Row) :=
  match z !! name with
  | Some (Some rows) => Ok rows
  | _ => Raise ValueError
  end.

Definition set_stops (v : pydict) (self : GTFSParser) : GTFSParser :=
  {| stops := Some v; stop_times := stop_times self; trips := trips self;
     calendar := calendar self; calendar_dates := calendar_dates self |}.
Definition set_stop_times (v : list Row) (self : GTFSParser) : GTFSParser :=
  {| stops := stops self; stop_times := Some v; trips := trips self;
     calendar := calendar self; calendar_dates := calendar_dates self |}.
Definition set_trips (v : pydict) (self : GTFSParser) : GTFSParser :=
  {| stops := stops self; stop_times := stop_times self; trips := Some v;
     calendar := calendar self; calendar_dates := calendar_dates self |}.
Definition set_calendar (v : list Row) (self : GTFSParser) : GTFSParser :=
  {| stops := stops self; stop_times := stop_times self; trips := trips self;
     calendar := Some v; calendar_dates := calendar_dates self |}.
Definition set_calendar_dates (v : list Row) (self : GTFSParser) : GTFSParser :=
  {| stops := stops self; stop_times := stop_times self; trips := trips self;
     calendar := calendar self; calendar_dates := Some v |}.

(** The statements under [try], as a state transformer: [self.data] as the
    statements executed so far have left it, and whether one of them raised.
    The loop that adds the full name of every stop to [self.stop_id_map]
    (lines 39 to 41) writes to another attribute of the object, cannot
    raise, and is read by nothing in the repository; the state modelled is
    [self.data] alone, and no statement here is about [stop_id_map]. *)
Definition load_tables (env : Env) (z : gmap string (option (list Row)))
    (self : GTFSParser) : result unit * GTFSParser :=
  match read_member z "stops.txt" ≫= λ rows, index_by "stop_id" rows [] with
  | Raise e => (Raise e, self)
  | Ok stops_dict =>
      let self := set_stops stops_dict self in
      match read_member z "stop_times.txt" with
      | Raise e => (Raise e, self)
      | Ok rows =>
          let self := set_stop_times rows self in
          match read_member z "trips.txt" ≫= λ rows, index_by "trip_id" rows [] with
          | Raise e => (Raise e, self)
          | Ok trips_dict =>
              let self := set_trips trips_dict self in
              match
                match calendar_file env with
                | Some (Some rows) => Ok rows
                | Some None => Raise ValueError
                | None => Ok []
                end
              with
              | Raise e => (Raise e, self)
              | Ok rows =>
                  let self := set_calendar rows self in
                  match
                    match z !! "calendar_dates.txt" with
                    | Some (Some rows) => Ok rows
                    | Some None => Raise ValueError
                    | None => Ok []
                    end
                  with
                  | Raise e => (Raise e, self)
                  | Ok rows => (Ok (), set_calendar_dates rows self)
                  end
              end
          end
      end
  end.

(** The returned flag and the parser after the call. *)
Definition load_data (env : Env) (self : GTFSParser) : bool * GTFSParser :=
  match gtfs_file env with
  | None => (false, self)
  | Some None => (false, self)
  | Some (Some z) =>
      if forallb (λ file, bool_decide (file ∈ dom z)) required_files then
        match load_tables env z self with
        | (Ok _, self) => (true, self)
        | (Raise _, self) => (false, self)
        end
      else (false, self)
  end.

(** ** The clock *)

(** The parser object together with the clock it reads: [clock n] is what
    the [n]-th call of [dt_util.now()] returns, [reads] counts the calls
    made so far. *)
Record World : Type := {
  parser : GTFSParser;
  clock : nat → Z;
  reads : nat
}.

Definition dt_util_now (w : World) : Z * World :=
  (clock w (reads w),
   {| parser := parser w; clock := clock w; reads := S (reads w) |}).

(** A call of the method [get_next_departures] on the object of [w]: the
    clock is read once, after the guard on the loaded tables. *)
Definition call_get_next_departures (stop_id : string) (w : World)
    : result by_line * World :=
  match stop_times (parser w), trips (parser w) with
  | Some _, Some _ =>
      let '(now, w') := dt_util_now w in
      (get_next_departures (parser w') now stop_id, w')
  | _, _ => (Ok ∅, w)
  end.

(** A call of the method [get_departures_for_week]: the clock is read twice. *)
Definition call_get_departures_for_week (utcoffset : Z → Z)
    (capitalize : string → string) (line stop_id : string) (w : World)
    : result (list event) * World :=
  let '(now_today, w1) := dt_util_now w in
  let '(now, w2) := dt_util_now w1 in
  (get_departures_for_week utcoffset capitalize (parser w2) now_today now line stop_id,
   w2).

(** ** The pools of the departure computer, in the words of its design *)

#[global] Instance result_eq_dec {A} `{EqDecision A} : EqDecision (result A).
Proof. solve_decision. Defined.

(** Pool (a): a departure of [line] today, not before [now], whose service
    runs today. *)
Definition in_pool_today (self : GTFSParser) (now today_date : Z)
    (line : option string) (dep : departure) : Prop :=
  dep_line dep = line
  ∧ now ≤ dep_datetime dep
  ∧ service_is_active_on_date self (dep_service_id dep) today_date = Ok true.

(** Pool (b): a departure of [line] whose service runs tomorrow. *)
Definition in_pool_tomorrow (self : GTFSParser) (tomorrow : Z)
    (line : option string) (dep : departure) : Prop :=
  dep_line dep = line
  ∧ service_is_active_on_date self (dep_service_id dep) tomorrow = Ok true.

#[global] Instance in_pool_today_dec self now today_date line dep :
  Decision (in_pool_today self now today_date line dep).
Proof. unfold in_pool_today. apply _. Defined.

#[global] Instance in_pool_tomorrow_dec self tomorrow line dep :
  Decision (in_pool_tomorrow self tomorrow line dep).
Proof. unfold in_pool_tomorrow. apply _. Defined.

Definition pool_today (self : GTFSParser) (now today_date : Z)
    (line : option string) (departures_all : list departure) : list departure :=
  sort_by dep_datetime
    (filter (in_pool_today self now today_date line)
            (sort_by dep_datetime departures_all)).

Definition pool_tomorrow (self : GTFSParser) (tomorrow : Z)
    (line : option string) (departures_all : list departure) : list departure :=
  sort_by dep_datetime
    (shift_to tomorrow <$>
       filter (in_pool_tomorrow self tomorrow line)
              (sort_by dep_datetime departures_all)).

(** A mapping leaves out the keys whose list would be empty. *)
Definition nonempty {A} (l : list A) : option (list A) :=
  match l with
  | [] => None
  | _ => Some l
  end.

(** ** Concrete feeds *)

Definition row_of (cells : list (string * string)) : Row :=
  list_to_map (prod_map id Some <$> cells).

(** [datetime(y, m, d, hh, mm, ss)] *)
Definition at_time (y m d hh mm ss : Z) : Z :=
  (ymd2ord y m d * 86400 + hh * 3600 + mm * 60 + ss) * MICROS.

Definition no_tables : GTFSParser :=
  {| stops := None; stop_times := None; trips := None;
     calendar := None; calendar_dates := None |}.

Definition weekdays_2024 (service_id : string) : Row :=
  row_of [("service_id", service_id);
          ("monday", "1"); ("tuesday", "1"); ("wednesday", "1");
          ("thursday", "1"); ("friday", "1"); ("saturday", "0"); ("sunday", "0");
          ("start_date", "20240101"); ("end_date", "20241231")].

Definition exception_row (service_id date kind : string) : Row :=
  row_of [("service_id", service_id); ("date", date); ("exception_type", kind)].

(** Scenario A: service S runs Monday to Friday through 2024, with
    Friday 2024-03-15 removed. *)
Definition scenario_A : GTFSParser :=
  set_calendar_dates [exception_row "S" "20240315" "2"]
    (set_calendar [weekdays_2024 "S"] no_tables).



(** Two calendar rows for one service: the first runs on weekdays, the
    last never. *)
Definition never_2024 (service_id : string) : Row :=
  row_of [("service_id", service_id);
          ("monday", "0"); ("tuesday", "0"); ("wednesday", "0");
          ("thursday", "0"); ("friday", "0"); ("saturday", "0"); ("sunday", "0");
          ("start_date", "20240101"); ("end_date", "20241231")].

Definition duplicate_calendar : GTFSParser :=
  set_calendar_dates []
    (set_calendar [weekdays_2024 "S"; never_2024 "S"] no_tables).

Definition stop_time_row (trip_id stop_id departure_time : string) : Row :=
  row_of [("trip_id", trip_id); ("stop_id", stop_id);
          ("departure_time", departure_time)].

Definition trip_row (trip_id route_id headsign service_id : string)
    : option string * Row :=
  (Some trip_id,
   row_of [("trip_id", trip_id); ("route_id", route_id);
           ("trip_headsign", headsign); ("service_id", service_id)]).

Definition stop_row (stop_id name : string) : option string * Row :=
  (Some stop_id, row_of [("stop_id", stop_id); ("stop_name", name)]).

(** Scenario B: at stop X, line 7 leaves at 23:50 on 2024-03-14 only and at
    06:00 on 2024-03-15 only. *)
Definition scenario_B : GTFSParser :=
  {| stops := Some [stop_row "X" "Plac"];
     stop_times := Some [stop_time_row "T1" "X" "23:50:00";
                         stop_time_row "T2" "X" "06:00:00"];
     trips := Some [trip_row "T1" "7" "Dworzec" "D14";
                    trip_row "T2" "7" "Dworzec" "D15"];
     calendar := Some [];
     calendar_dates := Some [exception_row "D14" "20240314" "1";
                             exception_row "D15" "20240315" "1"] |}.

(** The same two stop times on one trip whose service runs every weekday. *)
Definition one_trip_both_days : GTFSParser :=
  {| stops := Some [stop_row "X" "Plac"];
     stop_times := Some [stop_time_row "T1" "X" "23:50:00";
                         stop_time_row "T1" "X" "06:00:00"];
     trips := Some [trip_row "T1" "7" "Dworzec" "S"];
     calendar := Some [weekdays_2024 "S"];
     calendar_dates := Some [] |}.

(** A feed with a post-midnight time among its stop times. *)
Definition with_overflow_time : GTFSParser :=
  {| stops := Some [stop_row "X" "Plac"];
     stop_times := Some [stop_time_row "T1" "X" "23:50:00";
                         stop_time_row "T1" "X" "24:15:00";
                         stop_time_row "T1" "X" "06:00:00"];
     trips := Some [trip_row "T1" "7" "Dworzec" "S"];
     calendar := Some [weekdays_2024 "S"];
     calendar_dates := Some [] |}.

(** A line whose only service never runs. *)
Definition idle_line : GTFSParser :=
  {| stops := Some [stop_row "X" "Plac"];
     stop_times := Some [stop_time_row "T1" "X" "06:00:00"];
     trips := Some [trip_row "T1" "7" "Dworzec" "S"];
     calendar := Some [never_2024 "S"];
     calendar_dates := Some [] |}.

(** An archive whose three required tables have a header and no rows. *)
Definition empty_tables_env : Env :=
  {| gtfs_file := Some (Some (list_to_map [("stops.txt", Some []);
                                           ("stop_times.txt", Some []);
                                           ("trips.txt", Some [])]));
     calendar_file := None |}.

Definition central_european_time (dt : Z) : Z := 3600 * MICROS.


(** ** Notions used to state the calendar properties *)



(** The row is a [calendar_dates] row for [(service_id, date)]. *)
Definition is_exception_for (service_id : option string) (check_date : Z)
    (row : Row) : Prop :=
  row_get row "service_id" = service_id
  ∧ row_get row "date" = Some (strftime_Ymd check_date).

(** The row is a [calendar] row of [service_id]. *)
Definition is_calendar_of (service_id : option string) (row : Row) : Prop :=
  row_get row "service_id" = service_id.

(** Ascending order of a list under a key. *)
Definition key_le {A} (key : A → Z) (a b : A) : Prop := key a ≤ key b.

(** [get_next_departures(stop_id).get(line)]: the list of one line in a
    returned mapping. *)
Definition departures_of_line (r : result by_line) (line : string)
    : result (option (list departure)) :=
  results ← r; Ok (results !! Some line).

(** ** When a load can succeed *)

(** Every row of the table has the column the table is indexed by. *)
Definition all_have (key : string) (rows : list Row) : Prop :=
  Forall (λ row, is_Some (row !! key)) rows.

(** The tables of the archive [z] and the local calendar file can be read:
    the three required members are there and readable, every stop has a
    [stop_id] cell and every trip a [trip_id] cell, and the local
    [calendar.txt] and the member [calendar_dates.txt] are absent or
    readable. *)
Definition tables_readable (env : Env) (z : gmap string (option (list Row))) : Prop :=
  (∃ rows, z !! "stops.txt" = Some (Some rows) ∧ all_have "stop_id" rows)
  ∧ (∃ rows, z !! "stop_times.txt" = Some (Some rows))
  ∧ (∃ rows, z !! "trips.txt" = Some (Some rows) ∧ all_have "trip_id" rows)
  ∧ calendar_file env ≠ Some None
  ∧ z !! "calendar_dates.txt" ≠ Some None.

Definition loadable (env : Env) : Prop :=
  ∃ z, gtfs_file env = Some (Some z) ∧ tables_readable env z.

(** ** The daily update: [scheduler.py] *)

(** [get_random_update_time], with the draw of [random.randint(10, 14340)]
    as its argument: the time of day of [datetime.min] moved by that many
    seconds, in microseconds after midnight. *)
Definition get_random_update_time (random_seconds : Z) : Z :=
  (1 * DAY_MICROS + random_seconds * MICROS) mod DAY_MICROS.

(** One turn of the loop of [schedule_daily_random_update], up to the
    [sleep]: the naive reading [now] of [datetime.now()] and the draw give
    the target datetime and the delay, in microseconds ([total_seconds()]
    is that delay over 10^6). *)
Definition plan_update (now random_seconds : Z) : Z * Z :=
  let random_time := get_random_update_time random_seconds in
  let target_datetime := now / DAY_MICROS * DAY_MICROS + random_time in
  let target_datetime :=
    if target_datetime <=? now then target_datetime + 1 * DAY_MICROS
    else target_datetime in
  (target_datetime, target_datetime - now).

(** ** The sensors: [sensor.py] *)

(** A [BusSensor]: its line, whether Home Assistant has registered it
    ([sensor.hass is not None]), and the six attributes that
    [update_departures] writes.  The attributes fixed by the constructor
    (names, coordinates, ids) are read by no method modelled here. *)
Record BusSensor : Type := {
  sensor_line : option string;
  sensor_registered : bool;
  sensor_state : option isotime;
  sensor_bushour : option string;
  sensor_nextbustime : option string;
  sensor_nextbushour : option string;
  sensor_direction_first : option string;
  sensor_direction_second : option string
}.

(** [dt.strftime("%H:%M")] *)
Definition strftime_HM (dt : Z) : string :=
  let t := dt mod DAY_MICROS / MICROS in
  zfill2 (t / 3600) (String ":" (zfill2 (t / 60 mod 60) "")).

(** [dt.strftime("%Y-%m-%d %H:%M")] *)
Definition strftime_YmdHM (dt : Z) : string :=
  let '(y, m, d) := ord2ymd (dt / DAY_MICROS) in
  zfill4 y (String "-" (zfill2 m (String "-" (zfill2 d (String " "
    (strftime_HM dt)))))).

Section Sensors.
Variable utcoffset : Z → Z.
Variable capitalize : string → string.

(** [BusSensor.update_departures]; the datetimes of [dep_list] are aware
    datetimes of the default time zone, which [dt_util.as_local] returns as
    they are. *)
Definition update_departures (dep_list : list departure) (sensor : BusSensor)
    : BusSensor :=
  match dep_list with
  | [] =>
      {| sensor_line := sensor_line sensor;
         sensor_registered := sensor_registered sensor;
         sensor_state := None;
         sensor_bushour := None;
         sensor_nextbustime := None;
         sensor_nextbushour := None;
         sensor_direction_first := None;
         sensor_direction_second := None |}
  | first :: rest =>
      let local_dt_first := dep_datetime first in
      let '(nextbustime, nextbushour, direction_second) :=
        match rest with
        | second :: _ =>
            let local_dt_second := dep_datetime second in
            (Some (strftime_YmdHM local_dt_second),
             Some (strftime_HM local_dt_second),
             Some (capitalize (dep_direction second)))
        | [] => (None, None, None)
        end in
      {| sensor_line := sensor_line sensor;
         sensor_registered := sensor_registered sensor;
         sensor_state := Some (isoformat utcoffset local_dt_first);
         sensor_bushour := Some (strftime_HM local_dt_first);
         sensor_nextbustime := nextbustime;
         sensor_nextbushour := nextbushour;
         sensor_direction_first := Some (capitalize (dep_direction first));
         sensor_direction_second := direction_second |}
  end.

(** The body of the loop of [update_sensors] for one sensor. *)
Definition refresh_sensor (updated : by_line) (sensor : BusSensor) : BusSensor :=
  if sensor_registered sensor then
    let new_dep_list := default [] (updated !! sensor_line sensor) in
    update_departures new_dep_list sensor
  else sensor.

(** [update_sensors], the refresh that [async_setup_entry] schedules every
    minute: the sensors after it, or the exception of the query. *)
Definition update_sensors (parser : GTFSParser) (now : Z) (stop_id : string)
    (sensors : list BusSensor) : result (list BusSensor) :=
  updated ← get_next_departures parser now stop_id;
  if decide (updated = ∅) then Ok sensors
  else Ok (refresh_sensor updated <$> sensors).

End Sensors.

(** ** Notions used to state further properties *)

(** The characters of a string. *)
Fixpoint chars (s : string) : list ascii :=
  match s with
  | EmptyString => []
  | String a r => a :: chars r
  end.

(** The calendar date of a wall-clock reading. *)
Definition date_of (dt : Z) : Z := dt / DAY_MICROS.

(** The time of day of a wall-clock reading, in microseconds. *)
Definition time_of (dt : Z) : Z := dt mod DAY_MICROS.

(** The stop-time row is one of [trip_id] at [stop_id] whose time cell [s]
    parses to [dep_time]. *)
Definition is_stop_time_of (row : Row) (stop_id : string) (trip_id : option string)
    (s : string) (dep_time : Z) : Prop :=
  row !! "stop_id" = Some (Some stop_id)
  ∧ row !! "trip_id" = Some trip_id
  ∧ row !! "departure_time" = Some (Some s)
  ∧ strptime_HMS s = Ok dep_time.

(** What [get_next_departures] reads of the trip of a stop time: the row of
    [trip_id], or the empty dict when the trip is unknown. *)
Definition trip_info_of (trips_table : pydict) (trip_id : option string) : Row :=
  default ∅ (dict_lookup trip_id trips_table).

(** The resolver raises for this service and date. *)
Definition resolver_raises (self : GTFSParser) (service_id : option string)
    (check_date : Z) : Prop :=
  ∃ e, service_is_active_on_date self service_id check_date = Raise e.

(** The mapping a query returned, empty if it raised. *)
Definition returned (r : result by_line) : by_line :=
  match r with
  | Ok results => results
  | Raise _ => ∅
  end.

(** Line 7 at 06:00 on 2024-03-15, as the entry of tomorrow that a query
    made on 2024-03-14 returns. *)
Definition tomorrow_0600 (service_id : string) : departure :=
  {| dep_line := Some "7";
     dep_direction := "Dworzec";
     dep_service_id := Some service_id;
     dep_departure_time := "2024-03-15 06:00:00";
     dep_datetime := at_time 2024 3 15 6 0 0 |}.

(** ** A zone with daylight saving time *)

(** Europe/Warsaw in 2024: the UTC offset [zoneinfo] gives a wall-clock
    reading with [fold=0], which is what [as_local] attaches to a naive
    reading.  Summer time runs from 2024-03-31 to 2024-10-27.  A reading
    in the hour skipped on 2024-03-31 (02:00 to 03:00) gets the offset in
    force before the change, a reading in the hour repeated on 2024-10-27
    (02:00 to 03:00) is taken as its first occurrence. *)
Definition europe_warsaw_2024 (dt : Z) : Z :=
  if (at_time 2024 3 31 3 0 0 <=? dt) && (dt <? at_time 2024 10 27 3 0 0)
  then 7200 * MICROS
  else 3600 * MICROS.

(** What [dt_util.now()] returns in that zone at the UTC instant [utc]:
    the clock changes at 01:00 UTC on both dates. *)
Definition europe_warsaw_now (utc : Z) : isotime :=
  let offset :=
    if (at_time 2024 3 31 1 0 0 <=? utc) && (utc <? at_time 2024 10 27 1 0 0)
    then 7200 * MICROS
    else 3600 * MICROS in
  {| wall := utc + offset; utcoff := offset |}.

(** A night line: at stop X, line 7 leaves at 02:30 and at 03:10 on the one
    date [date] (written as in [calendar_dates.txt]). *)
Definition night_line (date : string) : GTFSParser :=
  {| stops := Some [stop_row "X" "Plac"];
     stop_times := Some [stop_time_row "N1" "X" "02:30:00";
                         stop_time_row "N1" "X" "03:10:00"];
     trips := Some [trip_row "N1" "7" "Dworzec" "N"];
     calendar := Some [];
     calendar_dates := Some [exception_row "N" date "1"] |}.


(** ** A trip row shorter than its header *)


(** * Properties *)

(** ** The error monad *)

Lemma bind_Ok {A B} (m : result A) (f : A → result B) (b : B) :
  m ≫= f = Ok b ↔ ∃ a, m = Ok a ∧ f a = Ok b.
Proof.
  destruct m as [a|e]; simpl.
  - split; [eauto | intros (a' & [= <-] & H); exact H].
  - split; [discriminate | intros (a' & [=] & _)].
Qed.




(** What a loop that returned has appended: exactly the items of its
    iterations, each of which returned. *)
Lemma for_each_elem_of {A B} (body : A → result (list B)) (l : list A)
    (r : list B) (y : B) :
  for_each body l = Ok r →
  y ∈ r ↔ ∃ x ys, x ∈ l ∧ body x = Ok ys ∧ y ∈ ys.
Proof.
  revert r. induction l as [|x l IH]; simpl; intros r Hr.
  - injection Hr as <-. split; [by intros ?%elem_of_nil|].
    by intros (x & ys & ?%elem_of_nil & _).
  - apply bind_Ok in Hr as (ys & Hx & Hr).
    apply bind_Ok in Hr as (zs & Hl & [= <-]).
    rewrite elem_of_app, (IH zs Hl). split.
    + intros [Hy | (x' & ys' & Hx' & Hb & Hy)].
      * exists x, ys. split_and!; [left | done | done].
      * exists x', ys'. split_and!; [by right | done | done].
    + intros (x' & ys' & [-> | Hx']%elem_of_cons & Hb & Hy).
      * left. congruence.
      * right. eauto.
Qed.

Lemma for_each_all_empty {A B} (body : A → result (list B)) (l : list A) :
  (∀ x, x ∈ l → body x = Ok []) → for_each body l = Ok [].
Proof.
  induction l as [|x l IH]; intros H; simpl; [reflexivity|].
  rewrite (H x) by left. simpl. rewrite IH; [reflexivity|].
  intros y Hy. apply H. by right.
Qed.

(** ** [service_is_active_on_date] *)

Lemma matching_exceptions_nil service_id check_date rows :
  Forall (λ r, ¬ is_exception_for service_id check_date r) rows →
  matching_exceptions service_id (strftime_Ymd check_date) rows = [].
Proof.
  intros H. unfold matching_exceptions.
  induction H as [|r rows Hr _ IH]; [reflexivity|].
  rewrite filter_cons_False; [exact IH | exact Hr].
Qed.


(** The first row of a service is the head of [calendar_rows]. *)
Lemma calendar_rows_first service_id pre row post :
  Forall (λ c, ¬ is_calendar_of service_id c) pre →
  is_calendar_of service_id row →
  calendar_rows service_id (pre ++ row :: post) =
  row :: calendar_rows service_id post.
Proof.
  intros Hpre Hrow. unfold calendar_rows. rewrite filter_app.
  replace (filter _ pre) with (@nil Row).
  - simpl. by rewrite filter_cons_True.
  - symmetry. induction Hpre as [|c pre Hc _ IH]; [reflexivity|].
    rewrite filter_cons_False; [exact IH | exact Hc].
Qed.








Lemma service_is_active_on_date_calendar self service_id check_date all_cdates all_crows :
  calendar_dates self = Some all_cdates →
  Forall (λ r, ¬ is_exception_for service_id check_date r) all_cdates →
  calendar self = Some all_crows →
  service_is_active_on_date self service_id check_date =
  match calendar_rows service_id all_crows with
  | [] => Ok false
  | row :: _ => calendar_verdict row check_date
  end.
Proof.
  intros Hd Hno Hc. unfold service_is_active_on_date.
  rewrite Hd, Hc. cbn [data_item mbind result_bind].
  by rewrite (matching_exceptions_nil _ _ _ Hno).
Qed.




(** C7 (counterexample).  The calendar table holds two rows for service S;
    the last one says that S never runs, yet S is active on Thursday
    2024-03-14, as the first row says. *)
Lemma last_calendar_row_is_ignored :
  calendar duplicate_calendar = Some [weekdays_2024 "S"; never_2024 "S"]
  ∧ service_is_active_on_date duplicate_calendar (Some "S") (ymd2ord 2024 3 14) = Ok true
  ∧ service_is_active_on_date (set_calendar [never_2024 "S"] duplicate_calendar)
      (Some "S") (ymd2ord 2024 3 14) = Ok false.
Proof. split_and!; [reflexivity | vm_compute; reflexivity ..]. Qed.

(** C7 (as amended).  When the calendar table holds several rows for one
    service identifier, the first of them in table order is the one that
    takes effect in the base-calendar fallback: the answer is the one the
    resolver gives when that row is the whole calendar table. *)
Theorem first_calendar_row_wins (self : GTFSParser) (service_id : option string)
    (check_date : Z) (all_cdates pre post : list Row) (row : Row) :
  calendar_dates self = Some all_cdates →
  Forall (λ r, ¬ is_exception_for service_id check_date r) all_cdates →
  calendar self = Some (pre ++ row :: post) →
  Forall (λ c, ¬ is_calendar_of service_id c) pre →
  is_calendar_of service_id row →
  service_is_active_on_date self service_id check_date =
  service_is_active_on_date (set_calendar [row] self) service_id check_date.
Proof.
  intros Hd Hno Hc Hpre Hrow.
  rewrite (service_is_active_on_date_calendar _ _ _ _ _ Hd Hno Hc).
  rewrite (service_is_active_on_date_calendar (set_calendar [row] self) _ _
             all_cdates [row] Hd Hno eq_refl).
  rewrite (calendar_rows_first _ _ _ _ Hpre Hrow).
  pose proof (calendar_rows_first _ [] row [] (Forall_nil_2 _) Hrow) as Hone.
  simpl in Hone. by rewrite Hone.
Qed.

Lemma first_calendar_row_wins_witness :
  service_is_active_on_date duplicate_calendar (Some "S") (ymd2ord 2024 3 14) =
  service_is_active_on_date (set_calendar [weekdays_2024 "S"] duplicate_calendar)
    (Some "S") (ymd2ord 2024 3 14).
Proof.
  apply (first_calendar_row_wins duplicate_calendar (Some "S") (ymd2ord 2024 3 14)
           [] [] [never_2024 "S"] (weekdays_2024 "S")).
  - reflexivity.
  - constructor.
  - reflexivity.
  - constructor.
  - vm_compute. reflexivity.
Defined.



(** ** Sorting *)

Section sorting.
Context {A : Type} (key : A → Z).

Lemma insert_by_perm (x : A) (l : list A) : insert_by key x l ≡ₚ x :: l.
Proof.
  induction l as [|y l IH]; simpl; [reflexivity|].
  destruct (key x <=? key y); [reflexivity|].
  rewrite IH. apply Permutation_swap.
Qed.

Lemma sort_by_perm (l : list A) : sort_by key l ≡ₚ l.
Proof.
  induction l as [|x l IH]; simpl; [reflexivity|].
  fold (sort_by key l). by rewrite insert_by_perm, IH.
Qed.

Lemma elem_of_sort_by (x : A) (l : list A) : x ∈ sort_by key l ↔ x ∈ l.
Proof. by rewrite sort_by_perm. Qed.

Lemma length_sort_by (l : list A) : length (sort_by key l) = length l.
Proof. by rewrite sort_by_perm. Qed.

Lemma sort_by_nil (l : list A) : sort_by key l = [] ↔ l = [].
Proof.
  split; [|by intros ->].
  intros H. apply Permutation_nil_r. by rewrite <- H, sort_by_perm.
Qed.

Lemma insert_by_sorted (x : A) (l : list A) :
  StronglySorted (key_le key) l → StronglySorted (key_le key) (insert_by key x l).
Proof.
  induction 1 as [|y l Hl IH Hy]; simpl.
  - repeat constructor.
  - destruct (Z.leb_spec (key x) (key y)) as [Hxy|Hxy].
    + constructor; [by constructor|]. constructor; [exact Hxy|].
      eapply Forall_impl; [exact Hy|]. unfold key_le. intros z Hz. lia.
    + constructor; [exact IH|].
      rewrite insert_by_perm. constructor; [unfold key_le; lia | exact Hy].
Qed.

Lemma sort_by_sorted (l : list A) : StronglySorted (key_le key) (sort_by key l).
Proof.
  induction l as [|x l IH]; simpl; [constructor|].
  by apply insert_by_sorted.
Qed.
End sorting.

(** ** Times of day are within the day *)

Lemma digit_val_bound (a : ascii) (x : Z) : digit_val a = Some x → 0 ≤ x ≤ 9.
Proof.
  unfold digit_val. intros H.
  destruct (Z.leb_spec 48 (Z.of_N (N_of_ascii a))),
           (Z.leb_spec (Z.of_N (N_of_ascii a)) 57); simpl in H; try discriminate.
  injection H as <-. lia.
Qed.

Lemma elem_of_two_digits ok s v r :
  (v, r) ∈ two_digits ok s →
  ∃ a b x y, s = String a (String b r) ∧ digit_val a = Some x ∧ digit_val b = Some y
             ∧ ok x y = true ∧ v = 10 * x + y.
Proof.
  unfold two_digits. destruct s as [|a [|b r']]; try by intros ?%elem_of_nil.
  destruct (digit_val a) as [x|] eqn:Ha; [|by intros ?%elem_of_nil].
  destruct (digit_val b) as [y|] eqn:Hb; [|by intros ?%elem_of_nil].
  destruct (ok x y) eqn:Hok; [|by intros ?%elem_of_nil].
  intros [= -> ->]%list_elem_of_singleton. by exists a, b, x, y.
Qed.

Lemma elem_of_one_digit ok s v r :
  (v, r) ∈ one_digit ok s →
  ∃ a, s = String a r ∧ digit_val a = Some v ∧ ok v = true.
Proof.
  unfold one_digit. destruct s as [|a r']; [by intros ?%elem_of_nil|].
  destruct (digit_val a) as [x|] eqn:Ha; [|by intros ?%elem_of_nil].
  destruct (ok x) eqn:Hok; [|by intros ?%elem_of_nil].
  intros [= -> ->]%list_elem_of_singleton. by exists a.
Qed.

Ltac digit_bounds :=
  repeat match goal with
  | H : (_, _) ∈ two_digits _ _ |- _ =>
      apply elem_of_two_digits in H as (? & ? & ? & ? & _ & ?%digit_val_bound
                                          & ?%digit_val_bound & ? & ->)
  | H : (_, _) ∈ one_digit _ _ |- _ =>
      apply elem_of_one_digit in H as (? & _ & ?%digit_val_bound & _)
  | H : _ ∈ _ ++ _ |- _ => apply elem_of_app in H as [H|H]
  | H : (_ && _) = true |- _ => apply andb_true_iff in H as [? ?]
  end.

Lemma re_H_bound s h r : (h, r) ∈ re_H s → 0 ≤ h ≤ 23.
Proof. unfold re_H. intros H. digit_bounds; lia. Qed.

Lemma re_M_bound s m r : (m, r) ∈ re_M s → 0 ≤ m ≤ 59.
Proof. unfold re_M. intros H. digit_bounds; lia. Qed.

Lemma re_S_bound s sec r : (sec, r) ∈ re_S s → 0 ≤ sec ≤ 61.
Proof. unfold re_S. intros H. digit_bounds; lia. Qed.

Lemma strptime_HMS_bound (s : string) (t : Z) :
  strptime_HMS s = Ok t → 0 ≤ t < DAY_MICROS.
Proof.
  unfold strptime_HMS.
  match goal with |- context [match ?l with _ => _ end] => destruct l as [|[[[h m] sec] rest] tl] eqn:Hfound end;
    [discriminate|].
  assert ((h, m, sec, rest) ∈ (h, m, sec, rest) :: tl) as Hin by left.
  rewrite <- Hfound in Hin. clear Hfound.
  apply list_elem_of_bind in Hin as ([h' r1] & Hin & Hh).
  apply list_elem_of_bind in Hin as (r2 & Hin & _).
  apply list_elem_of_bind in Hin as ([m' r3] & Hin & Hm).
  apply list_elem_of_bind in Hin as (r4 & Hin & _).
  apply list_elem_of_bind in Hin as ([sec' r5] & Hin & Hs).
  apply list_elem_of_singleton in Hin. injection Hin as -> -> -> ->.
  apply re_H_bound in Hh. apply re_M_bound in Hm. apply re_S_bound in Hs.
  case_decide; [|discriminate].
  destruct (Z.leb_spec sec' 59); [|discriminate].
  intros [= <-]. unfold DAY_MICROS, MICROS. lia.
Qed.


(** ** [get_next_departures] *)

(** Every departure built from a stop-time row lies on [today_date]. *)
Lemma stop_time_departure_today (trips_table : pydict) (today_date : Z)
    (stop_id : string) (row : Row) (deps : list departure) (dep : departure) :
  stop_time_departure trips_table today_date stop_id row = Ok deps →
  dep ∈ deps →
  today_date * DAY_MICROS ≤ dep_datetime dep < (today_date + 1) * DAY_MICROS.
Proof.
  unfold stop_time_departure. intros H Hin.
  apply bind_Ok in H as (sid & _ & H).
  case_decide; [|injection H as <-; by apply elem_of_nil in Hin].
  apply bind_Ok in H as (trip_id & _ & H).
  apply bind_Ok in H as (trip_headsign & _ & H).
  apply bind_Ok in H as (departure_time & _ & H).
  apply bind_Ok in H as (parsed & Hparse & H).
  destruct parsed as [dep_time|]; injection H as <-;
    [|by apply elem_of_nil in Hin].
  apply list_elem_of_singleton in Hin as ->. simpl.
  unfold parse_or_skip, strptime_cell in Hparse.
  destruct departure_time as [s|]; [|discriminate].
  destruct (strptime_HMS s) as [t|[]] eqn:Ht; try discriminate.
  injection Hparse as ->. apply strptime_HMS_bound in Ht. lia.
Qed.

Lemma departures_all_today (trips_table : pydict) (today_date : Z)
    (stop_id : string) (rows : list Row) (deps : list departure) (dep : departure) :
  for_each (stop_time_departure trips_table today_date stop_id) rows = Ok deps →
  dep ∈ deps →
  today_date * DAY_MICROS ≤ dep_datetime dep < (today_date + 1) * DAY_MICROS.
Proof.
  intros H Hin. apply (for_each_elem_of _ _ _ dep H) in Hin as (row & ys & _ & Hrow & Hin).
  by eapply stop_time_departure_today.
Qed.

(** The two loops that group by line. *)
Lemma setdefault_append_lookup (m : by_line) (k : option string) (dep : departure)
    (line : option string) :
  default [] (setdefault_append m k dep !! line) =
  if decide (k = line) then default [] (m !! line) ++ [dep] else default [] (m !! line).
Proof.
  unfold setdefault_append. case_decide as Hk.
  - subst. by rewrite lookup_insert_eq.
  - by rewrite lookup_insert_ne.
Qed.

Lemma setdefault_append_nonempty (m : by_line) (k : option string) (dep : departure) :
  (∀ line l, m !! line = Some l → l ≠ []) →
  ∀ line l, setdefault_append m k dep !! line = Some l → l ≠ [].
Proof.
  intros Hm line l. unfold setdefault_append.
  destruct (decide (k = line)) as [->|Hk].
  - rewrite lookup_insert_eq. intros [= <-]. by destruct (default [] (m !! line)).
  - rewrite lookup_insert_ne by done. apply Hm.
Qed.

Lemma future_today_lookup (self : GTFSParser) (now today_date : Z)
    (deps : list departure) (acc m : by_line) :
  future_today self now today_date deps acc = Ok m →
  (∀ line l, acc !! line = Some l → l ≠ []) →
  (∀ line l, m !! line = Some l → l ≠ [])
  ∧ ∀ line, default [] (m !! line) =
            default [] (acc !! line) ++ filter (in_pool_today self now today_date line) deps.
Proof.
  revert acc. induction deps as [|dep deps IH]; simpl; intros acc H Hacc.
  - injection H as <-. split; [exact Hacc|]. intros line. by rewrite app_nil_r.
  - destruct (Z.leb_spec now (dep_datetime dep)) as [Hnow|Hnow].
    + apply bind_Ok in H as ([] & Hactive & H).
      * destruct (IH _ H (setdefault_append_nonempty _ _ _ Hacc)) as [Hne Hm].
        split; [exact Hne|]. intros line. rewrite Hm, setdefault_append_lookup.
        case_decide as Hline.
        -- rewrite filter_cons_True by done. by rewrite <- (assoc_L (++)).
        -- rewrite filter_cons_False; [done|]. by intros [? _].
      * destruct (IH _ H Hacc) as [Hne Hm]. split; [exact Hne|].
        intros line. rewrite Hm, filter_cons_False; [done|].
        intros (_ & _ & Ha). congruence.
    + destruct (IH _ H Hacc) as [Hne Hm]. split; [exact Hne|].
      intros line. rewrite Hm, filter_cons_False; [done|].
      intros (_ & Hle & _). lia.
Qed.

Lemma tomorrow_loop_lookup (self : GTFSParser) (tomorrow : Z)
    (deps : list departure) (acc m : by_line) :
  tomorrow_loop self tomorrow deps acc = Ok m →
  (∀ line l, acc !! line = Some l → l ≠ []) →
  (∀ line l, m !! line = Some l → l ≠ [])
  ∧ ∀ line, default [] (m !! line) =
            default [] (acc !! line)
            ++ (shift_to tomorrow <$> filter (in_pool_tomorrow self tomorrow line) deps).
Proof.
  revert acc. induction deps as [|dep deps IH]; simpl; intros acc H Hacc.
  - injection H as <-. split; [exact Hacc|]. intros line. by rewrite app_nil_r.
  - apply bind_Ok in H as ([] & Hactive & H).
    + destruct (IH _ H (setdefault_append_nonempty _ _ _ Hacc)) as [Hne Hm].
      split; [exact Hne|]. intros line. rewrite Hm, setdefault_append_lookup.
      case_decide as Hline.
      * rewrite filter_cons_True by done. by rewrite <- (assoc_L (++)).
      * rewrite filter_cons_False; [done|]. by intros [? _].
    + destruct (IH _ H Hacc) as [Hne Hm]. split; [exact Hne|].
      intros line. rewrite Hm, filter_cons_False; [done|].
      intros (_ & Ha). congruence.
Qed.

(** A group map without empty lists is determined by its lists. *)
Lemma lookup_nonempty (m : by_line) (line : option string) :
  (∀ line l, m !! line = Some l → l ≠ []) →
  m !! line = nonempty (default [] (m !! line)).
Proof.
  intros Hm. destruct (m !! line) as [l|] eqn:Hl; [|reflexivity].
  specialize (Hm _ _ Hl). by destruct l.
Qed.

(** The capped fill. *)
Lemma append_upto2_take (next_deps deps : list departure) :
  (length next_deps < 2)%nat →
  append_upto2 next_deps deps = take 2 (next_deps ++ deps).
Proof.
  revert next_deps. induction deps as [|dep deps IH]; intros next_deps Hlen; simpl.
  - rewrite app_nil_r. symmetry. apply take_ge. lia.
  - case_decide as Hfull.
    + rewrite length_app in Hfull. simpl in Hfull.
      replace (next_deps ++ dep :: deps) with ((next_deps ++ [dep]) ++ deps)
        by (by rewrite <- (assoc_L (++))).
      rewrite take_app_le by (rewrite length_app; simpl; lia).
      symmetry. apply take_ge. rewrite length_app. simpl. lia.
    + rewrite length_app in Hfull. simpl in Hfull.
      rewrite IH by (rewrite length_app; simpl; lia).
      by rewrite <- (assoc_L (++)).
Qed.

Lemma next_deps_of_take (future_today_by_line tomorrow_map : by_line)
    (line : option string) :
  next_deps_of future_today_by_line tomorrow_map line =
  take 2 (default [] (future_today_by_line !! line)
          ++ default [] (tomorrow_map !! line)).
Proof.
  unfold next_deps_of.
  set (a := default [] (future_today_by_line !! line)).
  set (b := default [] (tomorrow_map !! line)).
  assert (match future_today_by_line !! line with
          | Some deps => append_upto2 [] deps
          | None => []
          end = take 2 a) as ->.
  { unfold a. destruct (future_today_by_line !! line) as [deps|]; simpl; [|reflexivity].
    by rewrite append_upto2_take by (simpl; lia). }
  case_decide as Hshort.
  - rewrite length_take in Hshort.
    assert (take 2 a = a) as -> by (apply take_ge; lia).
    assert (match tomorrow_map !! line with
            | Some deps => append_upto2 a deps
            | None => a
            end = append_upto2 a b) as ->.
    { unfold b. by destruct (tomorrow_map !! line). }
    apply append_upto2_take. lia.
  - rewrite length_take in Hshort. rewrite take_app_le by lia. reflexivity.
Qed.

Lemma collect_results_lookup (future_today_by_line tomorrow_map : by_line)
    (line : option string) :
  collect_results future_today_by_line tomorrow_map !! line =
  nonempty (next_deps_of future_today_by_line tomorrow_map line).
Proof.
  unfold collect_results.
  assert (∀ (X : gset (option string)) (line : option string),
            set_fold (λ line results,
                        match next_deps_of future_today_by_line tomorrow_map line with
                        | [] => results
                        | next_deps => <[line := next_deps]> results
                        end) (∅ : by_line) X !! line =
            if decide (line ∈ X)
            then nonempty (next_deps_of future_today_by_line tomorrow_map line)
            else None) as Hfold.
  { apply (set_fold_ind_L
             (λ (r : by_line) (X : gset (option string)),
                ∀ line, r !! line =
                        if decide (line ∈ X)
                        then nonempty (next_deps_of future_today_by_line tomorrow_map line)
                        else None)).
    - intros l. rewrite lookup_empty. by rewrite decide_False by set_solver.
    - intros x X r Hx Hr l.
      assert (r !! l = if decide (l ∈ X)
                       then nonempty (next_deps_of future_today_by_line tomorrow_map l)
                       else None) as Hrl by apply Hr.
      destruct (decide (l = x)) as [->|Hl].
      + rewrite decide_True by set_solver.
        rewrite decide_False in Hrl by done.
        destruct (next_deps_of future_today_by_line tomorrow_map x) eqn:Hnd.
        * exact Hrl.
        * by rewrite lookup_insert_eq.
      + assert (r !! l = if decide (l ∈ {[x]} ∪ X)
                         then nonempty (next_deps_of future_today_by_line tomorrow_map l)
                         else None) as Hrl'.
        { rewrite Hrl. destruct (decide (l ∈ X)) as [HlX|HlX].
          - rewrite decide_True; [reflexivity | set_solver].
          - rewrite decide_False; [reflexivity | set_solver]. }
        destruct (next_deps_of future_today_by_line tomorrow_map x); [exact Hrl'|].
        by rewrite lookup_insert_ne. }
  rewrite Hfold. case_decide as Hin; [reflexivity|].
  rewrite next_deps_of_take.
  apply not_elem_of_union in Hin as [Ha Hb].
  apply not_elem_of_dom in Ha. apply not_elem_of_dom in Hb.
  by rewrite Ha, Hb.
Qed.

Lemma get_next_departures_not_loaded (self : GTFSParser) (now : Z) (stop_id : string) :
  stop_times self = None ∨ trips self = None →
  get_next_departures self now stop_id = Ok ∅.
Proof.
  unfold get_next_departures. intros [-> | ->]; [reflexivity|].
  by destruct (stop_times self).
Qed.

(** What the method computes, line by line. *)
Lemma get_next_departures_lookup (self : GTFSParser) (now : Z) (stop_id : string)
    (stop_times_table : list Row) (trips_table : pydict) (results : by_line) :
  stop_times self = Some stop_times_table →
  trips self = Some trips_table →
  get_next_departures self now stop_id = Ok results →
  ∃ departures_all,
    for_each (stop_time_departure trips_table (now / DAY_MICROS) stop_id)
             stop_times_table = Ok departures_all
    ∧ ∀ line,
        results !! line =
        nonempty (take 2 (pool_today self now (now / DAY_MICROS) line departures_all
                          ++ pool_tomorrow self (now / DAY_MICROS + 1) line departures_all)).
Proof.
  intros Hs Ht. unfold get_next_departures. rewrite Hs, Ht. intros H.
  apply bind_Ok in H as (departures_all & Hall & H).
  apply bind_Ok in H as (today_map & Htoday & H).
  apply bind_Ok in H as (tomorrow_map & Htomorrow & [= <-]).
  exists departures_all. split; [exact Hall|]. intros line.
  rewrite collect_results_lookup, next_deps_of_take, !lookup_fmap.
  assert (∀ line l, (∅ : by_line) !! line = Some l → l ≠ []) as Hempty
    by (intros ? ?; by rewrite lookup_empty).
  destruct (future_today_lookup _ _ _ _ _ _ Htoday Hempty) as [_ Ha].
  destruct (tomorrow_loop_lookup _ _ _ _ _ Htomorrow Hempty) as [_ Hb].
  specialize (Ha line). specialize (Hb line).
  rewrite lookup_empty in Ha, Hb. simpl in Ha, Hb.
  unfold pool_today, pool_tomorrow. rewrite <- Ha, <- Hb.
  by destruct (today_map !! line), (tomorrow_map !! line).
Qed.

Lemma shift_to_datetime (tomorrow today_date : Z) (dep : departure) :
  today_date * DAY_MICROS ≤ dep_datetime dep < (today_date + 1) * DAY_MICROS →
  dep_datetime (shift_to tomorrow dep) =
  tomorrow * DAY_MICROS + (dep_datetime dep - today_date * DAY_MICROS).
Proof.
  intros Hd. unfold shift_to. simpl. f_equal.
  assert (0 < DAY_MICROS) by (unfold DAY_MICROS, MICROS; lia).
  symmetry. apply (Z.mod_unique_pos _ _ today_date); lia.
Qed.

Lemma pool_today_elem_of (self : GTFSParser) (now today_date : Z)
    (line : option string) (departures_all : list departure) (dep : departure) :
  dep ∈ pool_today self now today_date line departures_all ↔
  dep ∈ departures_all ∧ in_pool_today self now today_date line dep.
Proof.
  unfold pool_today.
  rewrite elem_of_sort_by, list_elem_of_filter, elem_of_sort_by. tauto.
Qed.

Lemma pool_tomorrow_elem_of (self : GTFSParser) (tomorrow : Z)
    (line : option string) (departures_all : list departure) (dep : departure) :
  dep ∈ pool_tomorrow self tomorrow line departures_all ↔
  ∃ dep0, dep0 ∈ departures_all ∧ in_pool_tomorrow self tomorrow line dep0
          ∧ dep = shift_to tomorrow dep0.
Proof.
  unfold pool_tomorrow. rewrite elem_of_sort_by, list_elem_of_fmap.
  split.
  - intros (dep0 & -> & [Hp Hin]%list_elem_of_filter).
    rewrite elem_of_sort_by in Hin. eauto.
  - intros (dep0 & Hin & Hp & ->). exists dep0. split; [reflexivity|].
    apply list_elem_of_filter. by rewrite elem_of_sort_by.
Qed.

(** The list of a line is in ascending order and has at most two entries. *)
Lemma pools_sorted (self : GTFSParser) (now : Z) (line : option string)
    (departures_all : list departure) :
  (∀ dep, dep ∈ departures_all →
     now / DAY_MICROS * DAY_MICROS ≤ dep_datetime dep
     < (now / DAY_MICROS + 1) * DAY_MICROS) →
  StronglySorted (key_le dep_datetime)
    (pool_today self now (now / DAY_MICROS) line departures_all
     ++ pool_tomorrow self (now / DAY_MICROS + 1) line departures_all).
Proof.
  intros Hday. apply StronglySorted_app_2.
  - intros a b [Ha _]%pool_today_elem_of (b0 & Hb0 & _ & ->)%pool_tomorrow_elem_of.
    unfold key_le. rewrite (shift_to_datetime _ (now / DAY_MICROS)) by auto.
    specialize (Hday _ Ha) as Ha'. specialize (Hday _ Hb0) as Hb'. lia.
  - apply sort_by_sorted.
  - apply sort_by_sorted.
Qed.








(** With one trip whose two stop times run on both days, asked at 23:55,
    line 7 gets tomorrow's 06:00 first and tomorrow's 23:50 second. *)
Example one_trip_both_days_gives_two :
  departures_of_line
    (get_next_departures one_trip_both_days (at_time 2024 3 14 23 55 0) "X") "7"
  = Ok (Some [ {| dep_line := Some "7";
                  dep_direction := "Dworzec";
                  dep_service_id := Some "S";
                  dep_departure_time := "2024-03-15 06:00:00";
                  dep_datetime := at_time 2024 3 15 6 0 0 |};
               {| dep_line := Some "7";
                  dep_direction := "Dworzec";
                  dep_service_id := Some "S";
                  dep_departure_time := "2024-03-15 23:50:00";
                  dep_datetime := at_time 2024 3 15 23 50 0 |} ]).
Proof. vm_compute. reflexivity. Qed.

(** ** [get_departures_for_week] *)

Lemma for_each_returned {A B} (body : A → result (list B)) (l : list A)
    (r : list B) (x : A) :
  for_each body l = Ok r → x ∈ l → ∃ ys, body x = Ok ys ∧ ∀ y, y ∈ ys → y ∈ r.
Proof.
  intros Hr Hx. destruct (body x) as [ys|e] eqn:Hb.
  - exists ys. split; [reflexivity|]. intros y Hy.
    apply (for_each_elem_of _ _ _ y Hr). eauto.
  - exfalso. revert r Hr. induction Hx as [x l|x x' l Hx IH]; simpl; intros r Hr.
    + rewrite Hb in Hr. discriminate.
    + apply bind_Ok in Hr as (ys & _ & Hr).
      apply bind_Ok in Hr as (zs & Hl & _). eauto.
Qed.

Section week_schedule.
Variable utcoffset : Z → Z.
Variable capitalize : string → string.


(** A stop time that qualifies has its event, if the iteration returns. *)
Lemma stop_time_event_qualifying (self : GTFSParser) (now : Z) (line stop_id : string)
    (current_day : Z) (trip_id : option string) (trip stop_time : Row)
    (evs : list event) (s : string) (dep_time : Z) :
  stop_time_event utcoffset capitalize self now line stop_id current_day
    trip_id trip stop_time = Ok evs →
  stop_time !! "trip_id" = Some trip_id →
  stop_time !! "stop_id" = Some (Some stop_id) →
  stop_time !! "departure_time" = Some (Some s) →
  strptime_HMS s = Ok dep_time →
  ¬ current_day * DAY_MICROS + dep_time + 60 * MICROS < now →
  ∃ e, e ∈ evs ∧ wall (start e) = current_day * DAY_MICROS + dep_time.
Proof.
  unfold stop_time_event, row_item, parse_or_skip, strptime_cell.
  intros H Htid Hsid Hdep Hparse Hlive.
  rewrite Htid, Hsid, Hdep in H. cbn [mbind result_bind] in H.
  rewrite !decide_True in H by done. rewrite Hparse in H. cbn [mbind result_bind] in H.
  destruct (Z.ltb_spec (current_day * DAY_MICROS + dep_time + 60 * MICROS) now);
    [lia|].
  apply bind_Ok in H as (trip_headsign & _ & H).
  apply bind_Ok in H as (stops_table & _ & H).
  apply bind_Ok in H as (stop & _ & [= <-]).
  eexists. split; [left|]. reflexivity.
Qed.

(** The events before sorting, and what the sort does to them. *)
Lemma get_departures_for_week_events (self : GTFSParser) (now_today now : Z)
    (line stop_id : string) (events : list event) :
  get_departures_for_week utcoffset capitalize self now_today now line stop_id
  = Ok events →
  ∃ unsorted,
    for_each (day_events utcoffset capitalize self (now_today / DAY_MICROS) now
                line stop_id) (seqZ 0 7) = Ok unsorted
    ∧ events = sort_by (λ x, instant (start x)) unsorted.
Proof.
  unfold get_departures_for_week. intros H.
  apply bind_Ok in H as (unsorted & Hun & [= <-]). eauto.
Qed.


Lemma week_event_qualifying (self : GTFSParser) (now_today now : Z)
    (line stop_id : string) (events : list event)
    (trips_table : pydict) (stop_times_table : list Row)
    (day_offset : Z) (trip_id : option string) (trip stop_time : Row)
    (s : string) (dep_time : Z) :
  get_departures_for_week utcoffset capitalize self now_today now line stop_id
  = Ok events →
  0 ≤ day_offset < 7 →
  trips self = Some trips_table →
  (trip_id, trip) ∈ trips_table →
  row_get trip "route_id" = Some line →
  service_is_active_on_date self (row_get trip "service_id")
    (now_today / DAY_MICROS + day_offset) = Ok true →
  stop_times self = Some stop_times_table →
  stop_time ∈ stop_times_table →
  stop_time !! "trip_id" = Some trip_id →
  stop_time !! "stop_id" = Some (Some stop_id) →
  stop_time !! "departure_time" = Some (Some s) →
  strptime_HMS s = Ok dep_time →
  ¬ (now_today / DAY_MICROS + day_offset) * DAY_MICROS + dep_time + 60 * MICROS < now →
  ∃ e, e ∈ events
       ∧ wall (start e) = (now_today / DAY_MICROS + day_offset) * DAY_MICROS + dep_time.
Proof.
  intros H Hday Htrips Htrip Hroute Hactive Hsts Hst Htid Hsid Hdep Hparse Hlive.
  apply get_departures_for_week_events in H as (unsorted & Hun & ->).
  assert (day_offset ∈ seqZ 0 7) as Hday' by (apply elem_of_seqZ; lia).
  destruct (for_each_returned _ _ _ _ Hun Hday') as (evs1 & Hd & Hsub1).
  unfold day_events in Hd. rewrite Htrips in Hd. cbn [data_item mbind result_bind] in Hd.
  destruct (for_each_returned _ _ _ _ Hd Htrip) as (evs2 & Ht & Hsub2).
  unfold trip_events in Ht. rewrite decide_True in Ht by done.
  rewrite Hactive in Ht. cbn [mbind result_bind] in Ht.
  rewrite Hsts in Ht. cbn [default] in Ht.
  destruct (for_each_returned _ _ _ _ Ht Hst) as (evs3 & Hs & Hsub3).
  destruct (stop_time_event_qualifying _ _ _ _ _ _ _ _ _ _ _ Hs Htid Hsid Hdep Hparse Hlive)
    as (e & Hin & Hwall).
  exists e. split; [|exact Hwall]. apply elem_of_sort_by. auto.
Qed.


(** With no active service on the line in the window the loops append
    nothing. *)
Lemma week_schedule_idle (self : GTFSParser) (now_today now : Z)
    (line stop_id : string) (trips_table : pydict) :
  trips self = Some trips_table →
  (∀ day_offset trip_id trip,
     0 ≤ day_offset < 7 → (trip_id, trip) ∈ trips_table →
     row_get trip "route_id" = Some line →
     service_is_active_on_date self (row_get trip "service_id")
       (now_today / DAY_MICROS + day_offset) = Ok false) →
  get_departures_for_week utcoffset capitalize self now_today now line stop_id = Ok [].
Proof.
  intros Htrips Hidle. unfold get_departures_for_week.
  rewrite for_each_all_empty; [reflexivity|].
  intros day_offset Hday%elem_of_seqZ. unfold day_events. rewrite Htrips.
  cbn [data_item mbind result_bind].
  apply for_each_all_empty. intros [trip_id trip] Htrip. unfold trip_events.
  case_decide as Hroute; [|reflexivity].
  rewrite (Hidle day_offset trip_id trip) by (done || lia). reflexivity.
Qed.
End week_schedule.



(** The week of the feed with a post-midnight time, asked on Thursday
    2024-03-14 at 23:40: nine events, the first at 23:50 that day. *)
Example week_schedule_of_line_7 :
  match get_departures_for_week central_european_time (λ s, s) with_overflow_time
          (at_time 2024 3 14 23 40 0) (at_time 2024 3 14 23 40 0) "7" "X" with
  | Ok events => Some (length events, wall ∘ start <$> head events)
  | Raise _ => None
  end = Some (9%nat, Some (at_time 2024 3 14 23 50 0)).
Proof. vm_compute. reflexivity. Qed.

(** ** Empty results *)





(** ** Successive calls *)

(** C9.  With the clock standing at [now], two successive calls of a query
    on the same object return the same result and leave the parser as it
    was; the result is the function of the parser's tables and of [now]
    that the method body computes. *)
Theorem successive_queries_agree :
  (∀ (w : World) (now : Z) (stop_id : string),
     (∀ n, clock w n = now) →
     ∃ r w1 w2,
       call_get_next_departures stop_id w = (r, w1)
       ∧ call_get_next_departures stop_id w1 = (r, w2)
       ∧ parser w1 = parser w ∧ parser w2 = parser w
       ∧ r = get_next_departures (parser w) now stop_id)
  ∧ (∀ (utcoffset : Z → Z) (capitalize : string → string) (w : World) (now : Z)
       (line stop_id : string),
       (∀ n, clock w n = now) →
       ∃ r w1 w2,
         call_get_departures_for_week utcoffset capitalize line stop_id w = (r, w1)
         ∧ call_get_departures_for_week utcoffset capitalize line stop_id w1 = (r, w2)
         ∧ parser w1 = parser w ∧ parser w2 = parser w
         ∧ r = get_departures_for_week utcoffset capitalize (parser w) now now
                 line stop_id).
Proof.
  split.
  - intros w now stop_id Hclock.
    destruct (stop_times (parser w)) as [sts|] eqn:Hs;
      [destruct (trips (parser w)) as [trs|] eqn:Ht|].
    + exists (get_next_departures (parser w) now stop_id),
        {| parser := parser w; clock := clock w; reads := S (reads w) |},
        {| parser := parser w; clock := clock w; reads := S (S (reads w)) |}.
      unfold call_get_next_departures. cbn [dt_util_now parser clock reads].
      rewrite Hs, Ht, !Hclock. split_and!; reflexivity.
    + exists (Ok ∅), w, w. unfold call_get_next_departures. rewrite Hs, Ht.
      split_and!; try reflexivity.
      symmetry. apply get_next_departures_not_loaded. by right.
    + exists (Ok ∅), w, w. unfold call_get_next_departures. rewrite Hs.
      split_and!; try reflexivity.
      symmetry. apply get_next_departures_not_loaded. by left.
  - intros utcoffset capitalize w now line stop_id Hclock.
    exists (get_departures_for_week utcoffset capitalize (parser w) now now line stop_id),
      {| parser := parser w; clock := clock w; reads := S (S (reads w)) |},
      {| parser := parser w; clock := clock w; reads := S (S (S (S (reads w)))) |}.
    unfold call_get_departures_for_week. cbn [dt_util_now parser clock reads].
    rewrite !Hclock. split_and!; reflexivity.
Qed.

Lemma successive_queries_agree_witness :
  ∃ r w1 w2,
    call_get_next_departures "X"
      {| parser := scenario_B; clock := λ _, at_time 2024 3 14 23 55 0; reads := 0 |}
    = (r, w1)
    ∧ call_get_next_departures "X" w1 = (r, w2)
    ∧ r = get_next_departures scenario_B (at_time 2024 3 14 23 55 0) "X".
Proof.
  destruct successive_queries_agree as [next _].
  destruct (next {| parser := scenario_B; clock := λ _, at_time 2024 3 14 23 55 0;
                    reads := 0 |} (at_time 2024 3 14 23 55 0) "X")
    as (r & w1 & w2 & H1 & H2 & _ & _ & Hr).
  - intros n. reflexivity.
  - exists r, w1, w2. by split_and!.
Defined.

(** ** Stop times that do not parse *)









(** ** [load_data] *)

Lemma index_by_Ok (key : string) (rows : list Row) (acc : pydict) :
  (∃ d, index_by key rows acc = Ok d) ↔ all_have key rows.
Proof.
  unfold all_have. revert acc. induction rows as [|row rows IH]; intros acc; simpl.
  - split; [constructor | eauto].
  - unfold row_item. rewrite Forall_cons. destruct (row !! key) as [k|]; simpl.
    + rewrite IH. split; [eauto | tauto].
    + split; [intros [d [=]] | intros [[k [=]] _]].
Qed.

Lemma index_by_Raise (key : string) (rows : list Row) (acc : pydict) (e : exc) :
  index_by key rows acc = Raise e → ¬ all_have key rows.
Proof.
  intros H Hall. apply (index_by_Ok key rows acc) in Hall as [d Hd]. congruence.
Qed.

Lemma load_tables_Ok (env : Env) (z : gmap string (option (list Row)))
    (self : GTFSParser) :
  (load_tables env z self).1 = Ok () ↔ tables_readable env z.
Proof.
  unfold load_tables, tables_readable, read_member.
  destruct (z !! "stops.txt") as [[stops_rows|]|] eqn:E1; cbn [mbind result_bind];
    try (split; [discriminate | by intros ((? & [=] & _) & _)]).
  destruct (index_by "stop_id" stops_rows []) as [stops_dict|e] eqn:I1;
    [|split; [discriminate|];
      intros ((? & [= <-] & Hall) & _); by apply index_by_Raise in I1].
  assert (all_have "stop_id" stops_rows) as H1 by (apply (index_by_Ok _ _ []); eauto).
  destruct (z !! "stop_times.txt") as [[stop_times_rows|]|] eqn:E2;
    try (split; [discriminate | by intros (_ & (? & [=]) & _)]).
  destruct (z !! "trips.txt") as [[trips_rows|]|] eqn:E3; cbn [mbind result_bind];
    try (split; [discriminate | by intros (_ & _ & (? & [=] & _) & _)]).
  destruct (index_by "trip_id" trips_rows []) as [trips_dict|e] eqn:I3;
    [|split; [discriminate|];
      intros (_ & _ & (? & [= <-] & Hall) & _); by apply index_by_Raise in I3].
  assert (all_have "trip_id" trips_rows) as H3 by (apply (index_by_Ok _ _ []); eauto).
  destruct (calendar_file env) as [[calendar_rows|]|] eqn:E4;
    try (split; [discriminate | by intros (_ & _ & _ & ? & _)]);
    (destruct (z !! "calendar_dates.txt") as [[exception_rows|]|] eqn:E5;
     try (split; [discriminate | by intros (_ & _ & _ & _ & ?)]);
     (split; [intros _|reflexivity]; split_and!; eauto; discriminate)).
Qed.

Lemma required_files_present (z : gmap string (option (list Row))) :
  forallb (λ file, bool_decide (file ∈ dom z)) required_files = true ↔
  is_Some (z !! "stops.txt") ∧ is_Some (z !! "stop_times.txt")
  ∧ is_Some (z !! "trips.txt").
Proof.
  unfold required_files. cbn [forallb].
  rewrite !andb_true_iff, !bool_decide_eq_true, !elem_of_dom. tauto.
Qed.

Lemma load_data_true (env : Env) (self : GTFSParser) :
  (load_data env self).1 = true ↔ loadable env.
Proof.
  unfold load_data, loadable.
  destruct (gtfs_file env) as [[z|]|];
    try (split; [discriminate | by intros (? & [=] & _)]).
  destruct (forallb _ required_files) eqn:Hreq.
  - pose proof (load_tables_Ok env z self) as Hok.
    destruct (load_tables env z self) as [[[]|e] self']; simpl in *.
    + split; [intros _ | reflexivity]. exists z. split; [reflexivity | by apply Hok].
    + split; [discriminate|]. intros (? & [= <-] & Hr). apply Hok in Hr. discriminate.
  - split; [discriminate|]. intros (? & [= <-] & Hr).
    assert (forallb (λ file, bool_decide (file ∈ dom z)) required_files = true)
      as Hyes; [|congruence].
    apply required_files_present.
    destruct Hr as ((? & -> & _) & (? & ->) & (? & -> & _) & _). eauto.
Qed.

(** C6 (counterexample).  The archive holds the three required tables with
    no row at all, and no calendar; the load succeeds and stores three empty
    tables. *)
Lemma load_succeeds_without_rows :
  (load_data empty_tables_env no_tables).1 = true
  ∧ stops (load_data empty_tables_env no_tables).2 = Some []
  ∧ stop_times (load_data empty_tables_env no_tables).2 = Some []
  ∧ trips (load_data empty_tables_env no_tables).2 = Some [].
Proof. split_and!; vm_compute; reflexivity. Qed.

(** C6 (as amended).  [load_data] reports success exactly when the archive
    exists and opens as a ZIP archive, its three required tables are
    present and readable with a [stop_id] cell in every stop and a
    [trip_id] cell in every trip, and the local calendar file and the
    calendar-exceptions member are each absent or readable; in every other
    case it reports failure.  The number of rows plays no part.  After a
    successful load an absent calendar file has given an empty calendar
    table and an absent calendar-exceptions member an empty exceptions
    table. *)
Theorem load_data_succeeds_exactly_when (env : Env) (self : GTFSParser) :
  ((load_data env self).1 = true ↔ loadable env)
  ∧ ((load_data env self).1 = false ↔ ¬ loadable env)
  ∧ ((load_data env self).1 = true →
     (calendar_file env = None → calendar (load_data env self).2 = Some [])
     ∧ (∀ z, gtfs_file env = Some (Some z) → z !! "calendar_dates.txt" = None →
             calendar_dates (load_data env self).2 = Some [])
     ∧ (∀ z rows, gtfs_file env = Some (Some z) →
                  z !! "stop_times.txt" = Some (Some rows) →
                  stop_times (load_data env self).2 = Some rows)).
Proof.
  split_and!.
  - apply load_data_true.
  - rewrite <- load_data_true. symmetry. apply not_true_iff_false.
  - unfold load_data.
    destruct (gtfs_file env) as [[z|]|]; try discriminate.
    destruct (forallb _ required_files); [|discriminate].
    unfold load_tables, read_member.
    destruct (z !! "stops.txt") as [[stops_rows|]|]; cbn [mbind result_bind];
      try discriminate.
    destruct (index_by "stop_id" stops_rows []); [|discriminate].
    destruct (z !! "stop_times.txt") as [[stop_times_rows|]|] eqn:E2;
      try discriminate.
    destruct (z !! "trips.txt") as [[trips_rows|]|]; cbn [mbind result_bind];
      try discriminate.
    destruct (index_by "trip_id" trips_rows []); [|discriminate].
    destruct (calendar_file env) as [[calendar_rows|]|]; try discriminate;
      destruct (z !! "calendar_dates.txt") as [[exception_rows|]|] eqn:E5;
      try discriminate; intros _; split_and!; intros; simplify_eq;
      try reflexivity; cbn; congruence.
Qed.

Lemma load_data_succeeds_exactly_when_witness :
  (load_data empty_tables_env no_tables).1 = true
  ∧ calendar (load_data empty_tables_env no_tables).2 = Some [].
Proof.
  destruct (load_data_succeeds_exactly_when empty_tables_env no_tables)
    as (Hiff & _ & Hafter).
  assert ((load_data empty_tables_env no_tables).1 = true) as Hok.
  { apply Hiff. eexists. split; [reflexivity|].
    unfold tables_readable. split_and!.
    - exists []. split; [reflexivity | constructor].
    - exists []. reflexivity.
    - exists []. split; [reflexivity | constructor].
    - discriminate.
    - discriminate. }
  split; [exact Hok|]. by apply Hafter.
Defined.

(** * Further properties *)

(** ** Where the departures of [get_next_departures] come from *)

Lemma stop_time_departure_inv (trips_table : pydict) (today_date : Z)
    (stop_id : string) (row : Row) (deps : list departure) (dep : departure) :
  stop_time_departure trips_table today_date stop_id row = Ok deps →
  dep ∈ deps →
  ∃ trip_id s dep_time h,
    is_stop_time_of row stop_id trip_id s dep_time
    ∧ row_get_default (trip_info_of trips_table trip_id) "trip_headsign" "" = Some h
    ∧ dep = {| dep_line := row_get_default (trip_info_of trips_table trip_id)
                             "route_id" "Nieznana";
               dep_direction := str_replace "/" " " h;
               dep_service_id := row_get_default (trip_info_of trips_table trip_id)
                                   "service_id" "";
               dep_departure_time := s;
               dep_datetime := today_date * DAY_MICROS + dep_time |}.
Proof.
  unfold stop_time_departure, row_item. intros H Hin.
  destruct (row !! "stop_id") as [sid|] eqn:Hsid; [|discriminate].
  cbn [mbind result_bind] in H.
  case_decide as Hstop; [subst sid|injection H as <-; by apply elem_of_nil in Hin].
  destruct (row !! "trip_id") as [trip_id|] eqn:Htid; [|discriminate].
  cbn [mbind result_bind] in H.
  unfold headsign in H. fold (trip_info_of trips_table trip_id) in H.
  destruct (row_get_default (trip_info_of trips_table trip_id) "trip_headsign" "")
    as [h|] eqn:Hh; [|discriminate].
  cbn [mbind result_bind] in H.
  unfold parse_or_skip, strptime_cell in H.
  destruct (row !! "departure_time") as [[s|]|] eqn:Hdep;
    cbn [mbind result_bind] in H; try discriminate.
  destruct (strptime_HMS s) as [dep_time|[]] eqn:Hparse;
    cbn [mbind result_bind] in H; try discriminate; injection H as <-;
    [|by apply elem_of_nil in Hin].
  apply list_elem_of_singleton in Hin as ->.
  exists trip_id, s, dep_time, h. by split_and!.
Qed.

(** An entry of a line's list is a departure of today's pool or the shifted
    copy of one of tomorrow's pool. *)
Lemma next_departures_entry (self : GTFSParser) (now : Z) (stop_id : string)
    (stop_times_table : list Row) (trips_table : pydict) (results : by_line)
    (line : option string) (deps : list departure) (dep : departure) :
  stop_times self = Some stop_times_table →
  trips self = Some trips_table →
  get_next_departures self now stop_id = Ok results →
  results !! line = Some deps →
  dep ∈ deps →
  ∃ departures_all,
    for_each (stop_time_departure trips_table (now / DAY_MICROS) stop_id)
             stop_times_table = Ok departures_all
    ∧ ((dep ∈ departures_all ∧ in_pool_today self now (now / DAY_MICROS) line dep)
       ∨ (∃ dep0, dep0 ∈ departures_all
                  ∧ in_pool_tomorrow self (now / DAY_MICROS + 1) line dep0
                  ∧ dep = shift_to (now / DAY_MICROS + 1) dep0)).
Proof.
  intros Hs Ht H Hline Hin.
  destruct (get_next_departures_lookup _ _ _ _ _ _ Hs Ht H) as (departures_all & Hall & Hres).
  exists departures_all. split; [exact Hall|].
  rewrite Hres in Hline.
  set (pools := pool_today self now (now / DAY_MICROS) line departures_all
                ++ pool_tomorrow self (now / DAY_MICROS + 1) line departures_all) in *.
  assert (deps = take 2 pools) as ->.
  { unfold nonempty in Hline. destruct (take 2 pools); congruence. }
  apply subseteq_take in Hin. unfold pools in Hin.
  apply elem_of_app in Hin as [Ha|Hb].
  - left. by apply pool_today_elem_of.
  - right. by apply pool_tomorrow_elem_of.
Qed.

Lemma day_micros_pos : 0 < DAY_MICROS.
Proof. unfold DAY_MICROS, MICROS. lia. Qed.

Lemma date_time_of (day t : Z) :
  0 ≤ t < DAY_MICROS →
  date_of (day * DAY_MICROS + t) = day ∧ time_of (day * DAY_MICROS + t) = t.
Proof.
  intros Ht. pose proof day_micros_pos. unfold date_of, time_of. split.
  - symmetry. apply (Z.div_unique_pos _ _ _ t); lia.
  - symmetry. apply (Z.mod_unique_pos _ _ day); lia.
Qed.

Lemma now_before_tomorrow (now : Z) : now < (now / DAY_MICROS + 1) * DAY_MICROS.
Proof.
  pose proof day_micros_pos.
  pose proof (Z.mod_pos_bound now DAY_MICROS ltac:(lia)).
  pose proof (Z.div_mod now DAY_MICROS ltac:(lia)). lia.
Qed.

(** X1.  No departure returned by [get_next_departures] is before [now] in
    the comparison the code makes, which is the one Python makes between
    two aware datetimes of the same zone: on wall-clock readings.  The
    reading of every entry of every line is at or after the reading of
    [now], on today's date or on tomorrow's, and the entry belongs to the
    line it is listed under.  As an instant the entry is not before [now]
    whenever its UTC offset is not greater than the offset [now] carries;
    with a greater offset it may be, as in the hour repeated when the
    clocks go back. *)
Theorem next_departures_not_before_now_on_the_clock (self : GTFSParser) (now : Z)
    (stop_id : string) (results : by_line) (line : option string)
    (deps : list departure) (dep : departure) :
  get_next_departures self now stop_id = Ok results →
  results !! line = Some deps →
  dep ∈ deps →
  now ≤ dep_datetime dep
  ∧ (date_of (dep_datetime dep) = date_of now
     ∨ date_of (dep_datetime dep) = date_of now + 1)
  ∧ dep_line dep = line
  ∧ ∀ (utcoffset : Z → Z) (now_offset : Z),
      utcoffset (dep_datetime dep) ≤ now_offset →
      now - now_offset ≤ instant (isoformat utcoffset (dep_datetime dep)).
Proof.
  intros H Hline Hin.
  assert (now ≤ dep_datetime dep
          ∧ (date_of (dep_datetime dep) = date_of now
             ∨ date_of (dep_datetime dep) = date_of now + 1)
          ∧ dep_line dep = line) as (Hnow & Hdate & Hl).
  { destruct (stop_times self) as [stop_times_table|] eqn:Hs;
      [|rewrite get_next_departures_not_loaded in H by auto;
        injection H as <-; by rewrite lookup_empty in Hline].
    destruct (trips self) as [trips_table|] eqn:Ht;
      [|rewrite get_next_departures_not_loaded in H by auto;
        injection H as <-; by rewrite lookup_empty in Hline].
    destruct (next_departures_entry _ _ _ _ _ _ _ _ _ Hs Ht H Hline Hin)
      as (departures_all & Hall
          & [[Hdep (Hl & Hnow & _)] | (dep0 & Hdep0 & [Hl _] & ->)]).
    - pose proof (departures_all_today _ _ _ _ _ _ Hall Hdep) as Hday.
      split_and!; [exact Hnow | left | exact Hl].
      unfold date_of. symmetry.
      apply (Z.div_unique_pos _ _ _
               (dep_datetime dep - now / DAY_MICROS * DAY_MICROS)); lia.
    - pose proof (departures_all_today _ _ _ _ _ _ Hall Hdep0) as Hday.
      rewrite (shift_to_datetime _ (now / DAY_MICROS)) by exact Hday.
      pose proof (now_before_tomorrow now).
      split_and!; [lia | right | exact Hl].
      unfold date_of. symmetry.
      apply (Z.div_unique_pos _ _ _
               (dep_datetime dep0 - now / DAY_MICROS * DAY_MICROS)); lia. }
  split_and!; [exact Hnow | exact Hdate | exact Hl |].
  intros utcoffset now_offset Hoffset.
  unfold instant, isoformat. cbn [wall utcoff]. lia.
Qed.

Lemma get_next_departures_returned_scenario_B :
  get_next_departures scenario_B (at_time 2024 3 14 23 55 0) "X"
  = Ok (returned (get_next_departures scenario_B (at_time 2024 3 14 23 55 0) "X")).
Proof.
  destruct (get_next_departures scenario_B (at_time 2024 3 14 23 55 0) "X")
    as [results|e] eqn:Hres; [reflexivity | vm_compute in Hres; discriminate].
Defined.

Lemma next_departures_not_before_now_on_the_clock_witness :
  at_time 2024 3 14 23 55 0 ≤ dep_datetime (tomorrow_0600 "D15")
  ∧ (date_of (dep_datetime (tomorrow_0600 "D15")) = date_of (at_time 2024 3 14 23 55 0)
     ∨ date_of (dep_datetime (tomorrow_0600 "D15"))
       = date_of (at_time 2024 3 14 23 55 0) + 1)
  ∧ dep_line (tomorrow_0600 "D15") = Some "7"
  ∧ at_time 2024 3 14 23 55 0 - 3600 * MICROS
    ≤ instant (isoformat central_european_time (dep_datetime (tomorrow_0600 "D15"))).
Proof.
  destruct (next_departures_not_before_now_on_the_clock scenario_B
              (at_time 2024 3 14 23 55 0) "X"
              (returned (get_next_departures scenario_B (at_time 2024 3 14 23 55 0) "X"))
              (Some "7") [tomorrow_0600 "D15"] (tomorrow_0600 "D15"))
    as (Hnow & Hdate & Hline & Hinstant).
  - exact get_next_departures_returned_scenario_B.
  - vm_compute. reflexivity.
  - left.
  - split_and!; [exact Hnow | exact Hdate | exact Hline |].
    apply (Hinstant central_european_time (3600 * MICROS)). reflexivity.
Defined.

(** On the night the clocks go back, asked at 01:30 UTC, which the clock of
    the zone shows as 02:30 (+01:00), the second 02:30 of that night: the
    02:30 of line 7 is listed, as the first 02:30 (+02:00), the instant
    00:30 UTC, an hour before the current instant. *)
Example fall_back_departure_before_current_instant :
  europe_warsaw_now (at_time 2024 10 27 1 30 0)
  = {| wall := at_time 2024 10 27 2 30 0; utcoff := 3600 * MICROS |}
  ∧ dep_datetime <$>
      default [] (returned (get_next_departures (night_line "20241027")
                              (at_time 2024 10 27 2 30 0) "X") !! Some "7")
    = [at_time 2024 10 27 2 30 0; at_time 2024 10 27 3 10 0]
  ∧ instant (isoformat europe_warsaw_2024 (at_time 2024 10 27 2 30 0))
    = at_time 2024 10 27 0 30 0
  ∧ instant (isoformat europe_warsaw_2024 (at_time 2024 10 27 2 30 0))
    < instant (europe_warsaw_now (at_time 2024 10 27 1 30 0)).
Proof.
  split; [vm_compute; reflexivity|].
  split; [|split; vm_compute; reflexivity].
  destruct (get_next_departures (night_line "20241027") (at_time 2024 10 27 2 30 0) "X")
    as [results|err] eqn:Hres; vm_compute in Hres; [|discriminate].
  injection Hres as <-. vm_compute. reflexivity.
Qed.

Lemma str_replace_removes (old new : ascii) (s : string) :
  old ≠ new → old ∉ chars (str_replace old new s).
Proof.
  intros Hne. induction s as [|a r IH]; simpl; [by intros ?%elem_of_nil|].
  intros [Heq | Hin]%elem_of_cons; [|by apply IH].
  case_decide; congruence.
Qed.

Lemma shift_to_fields (tomorrow : Z) (dep : departure) :
  dep_line (shift_to tomorrow dep) = dep_line dep
  ∧ dep_direction (shift_to tomorrow dep) = dep_direction dep
  ∧ dep_service_id (shift_to tomorrow dep) = dep_service_id dep
  ∧ dep_departure_time (shift_to tomorrow dep)
    = strftime_YmdHMS (dep_datetime (shift_to tomorrow dep)).
Proof. by split_and!. Qed.

(** X2.  Every departure returned by [get_next_departures] is the time of a
    stop-time row of that stop: a row of the queried stop whose time cell
    parses to the departure's time of day, on the line named by the
    [route_id] of the row's trip ("Nieznana" when the trip is unknown or has
    no such column), with that trip's service, and with the trip's headsign
    as direction, every slash replaced by a space. *)
Theorem next_departures_come_from_stop_times (self : GTFSParser) (now : Z)
    (stop_id : string) (stop_times_table : list Row) (trips_table : pydict)
    (results : by_line) (line : option string) (deps : list departure)
    (dep : departure) :
  stop_times self = Some stop_times_table →
  trips self = Some trips_table →
  get_next_departures self now stop_id = Ok results →
  results !! line = Some deps →
  dep ∈ deps →
  ∃ row trip_id s h,
    row ∈ stop_times_table
    ∧ is_stop_time_of row stop_id trip_id s (time_of (dep_datetime dep))
    ∧ line = row_get_default (trip_info_of trips_table trip_id) "route_id" "Nieznana"
    ∧ dep_service_id dep
      = row_get_default (trip_info_of trips_table trip_id) "service_id" ""
    ∧ row_get_default (trip_info_of trips_table trip_id) "trip_headsign" "" = Some h
    ∧ dep_direction dep = str_replace "/" " " h
    ∧ "/"%char ∉ chars (dep_direction dep).
Proof.
  intros Hs Ht H Hline Hin.
  destruct (next_departures_entry _ _ _ _ _ _ _ _ _ Hs Ht H Hline Hin)
    as (departures_all & Hall & Hcases).
  assert (∃ dep0, dep0 ∈ departures_all
                  ∧ dep_line dep0 = line
                  ∧ dep_direction dep = dep_direction dep0
                  ∧ dep_service_id dep = dep_service_id dep0
                  ∧ time_of (dep_datetime dep) = time_of (dep_datetime dep0))
    as (dep0 & Hdep0 & Hl & Hdir & Hsid & Htime).
  { destruct Hcases as [[Hdep (Hl & _)] | (dep0 & Hdep0 & [Hl _] & ->)].
    - exists dep. by split_and!.
    - exists dep0. split_and!; try done.
      pose proof (departures_all_today _ _ _ _ _ _ Hall Hdep0) as Hday.
      rewrite (shift_to_datetime _ (now / DAY_MICROS)) by exact Hday.
      assert (0 ≤ dep_datetime dep0 - now / DAY_MICROS * DAY_MICROS < DAY_MICROS)
        as Hb by lia.
      destruct (date_time_of (now / DAY_MICROS + 1) _ Hb) as [_ ->].
      replace (dep_datetime dep0)
        with (now / DAY_MICROS * DAY_MICROS
              + (dep_datetime dep0 - now / DAY_MICROS * DAY_MICROS)) at 2 by lia.
      by destruct (date_time_of (now / DAY_MICROS) _ Hb) as [_ ->]. }
  apply (for_each_elem_of _ _ _ dep0 Hall) in Hdep0 as (row & ys & Hrow & Hbody & Hin0).
  destruct (stop_time_departure_inv _ _ _ _ _ _ Hbody Hin0)
    as (trip_id & s & dep_time & h & Hst & Hh & ->).
  cbn [dep_line dep_direction dep_service_id dep_datetime] in *.
  assert (0 ≤ dep_time < DAY_MICROS) as Hb
    by (destruct Hst as (_ & _ & _ & Hp); by apply strptime_HMS_bound in Hp).
  destruct (date_time_of (now / DAY_MICROS) _ Hb) as [_ Ht0].
  exists row, trip_id, s, h. split_and!; try done.
  - by rewrite Htime, Ht0.
  - rewrite Hdir. by apply str_replace_removes.
Qed.

Lemma next_departures_come_from_stop_times_witness :
  ∃ row trip_id s h,
    row ∈ [stop_time_row "T1" "X" "23:50:00"; stop_time_row "T2" "X" "06:00:00"]
    ∧ is_stop_time_of row "X" trip_id s (time_of (dep_datetime (tomorrow_0600 "D15")))
    ∧ dep_direction (tomorrow_0600 "D15") = str_replace "/" " " h.
Proof.
  destruct (next_departures_come_from_stop_times scenario_B (at_time 2024 3 14 23 55 0)
              "X" [stop_time_row "T1" "X" "23:50:00"; stop_time_row "T2" "X" "06:00:00"]
              [trip_row "T1" "7" "Dworzec" "D14"; trip_row "T2" "7" "Dworzec" "D15"]
              (returned (get_next_departures scenario_B (at_time 2024 3 14 23 55 0) "X"))
              (Some "7") [tomorrow_0600 "D15"] (tomorrow_0600 "D15"))
    as (row & trip_id & s & h & Hrow & Hst & _ & _ & _ & Hdir & _).
  - reflexivity.
  - reflexivity.
  - exact get_next_departures_returned_scenario_B.
  - vm_compute. reflexivity.
  - left.
  - exists row, trip_id, s, h. by split_and!.
Defined.



(** ** The sorts are stable, and the second sort of each line is idle *)

Section stable_sort.
Context {A : Type} (key : A → Z).

Lemma insert_by_filter (k : Z) (x : A) (l : list A) :
  filter (λ y, key y = k) (insert_by key x l) = filter (λ y, key y = k) (x :: l).
Proof.
  induction l as [|y l IH]; simpl; [reflexivity|].
  destruct (Z.leb_spec (key x) (key y)) as [Hle|Hlt]; [reflexivity|].
  destruct (decide (key y = k)) as [Hy|Hy].
  - rewrite (filter_cons_True _ y) by done. rewrite IH.
    rewrite (filter_cons_False _ x) by lia.
    rewrite (filter_cons_False _ x) by lia.
    by rewrite (filter_cons_True _ y) by done.
  - rewrite (filter_cons_False _ y) by done. rewrite IH.
    destruct (decide (key x = k)) as [Hx|Hx].
    + rewrite !(filter_cons_True _ x) by done.
      by rewrite (filter_cons_False _ y) by done.
    + rewrite !(filter_cons_False _ x) by done.
      by rewrite (filter_cons_False _ y) by done.
Qed.

(** Elements of equal key keep their order. *)
Lemma sort_by_stable (k : Z) (l : list A) :
  filter (λ y, key y = k) (sort_by key l) = filter (λ y, key y = k) l.
Proof.
  induction l as [|x l IH]; simpl; [reflexivity|].
  fold (sort_by key l). rewrite insert_by_filter.
  destruct (decide (key x = k)).
  - rewrite !(filter_cons_True _ x) by done. by rewrite IH.
  - rewrite !(filter_cons_False _ x) by done. exact IH.
Qed.

(** Sorting a list that is in order changes nothing. *)
Lemma sort_by_sorted_id (l : list A) :
  StronglySorted (key_le key) l → sort_by key l = l.
Proof.
  induction 1 as [|x l Hl IH Hx]; simpl; [reflexivity|].
  fold (sort_by key l). rewrite IH. destruct Hx as [|y l Hxy _]; simpl; [reflexivity|].
  unfold key_le in Hxy. by destruct (Z.leb_spec (key x) (key y)); [|lia].
Qed.

Lemma filter_sorted (P : A → Prop) `{∀ x, Decision (P x)} (l : list A) :
  StronglySorted (key_le key) l → StronglySorted (key_le key) (filter P l).
Proof.
  induction 1 as [|x l Hl IH Hx]; [constructor|].
  destruct (decide (P x)).
  - rewrite filter_cons_True by done. constructor; [exact IH|].
    apply Forall_forall. intros y [_ Hy]%list_elem_of_filter.
    rewrite Forall_forall in Hx. by apply Hx.
  - by rewrite filter_cons_False.
Qed.
End stable_sort.

Lemma shift_to_sorted (tomorrow today_date : Z) (l : list departure) :
  Forall (λ dep, today_date * DAY_MICROS ≤ dep_datetime dep
                 < (today_date + 1) * DAY_MICROS) l →
  StronglySorted (key_le dep_datetime) l →
  StronglySorted (key_le dep_datetime) (shift_to tomorrow <$> l).
Proof.
  intros Hday Hsorted. induction Hsorted as [|x l Hl IH Hx]; [constructor|].
  apply Forall_cons in Hday as [Hdx Hdl].
  rewrite fmap_cons. constructor; [by apply IH|].
  apply Forall_forall. intros y (y0 & -> & Hy0)%list_elem_of_fmap.
  rewrite Forall_forall in Hx, Hdl. specialize (Hx y0 Hy0). specialize (Hdl y0 Hy0).
  unfold key_le in *.
  rewrite !(shift_to_datetime _ today_date) by done. lia.
Qed.

(** X4.  The order of a line's list is decided by the one sort of all the
    stop's departures: the later sort of each line's list never moves
    anything, so each list is made of the first two entries of the sorted
    departures that qualify for today followed by those that qualify for
    tomorrow; and that sort is stable, so departures with the same datetime
    stay in the order of their [stop_times] rows. *)
Theorem next_departures_keep_table_order (self : GTFSParser) (now : Z)
    (stop_id : string) (stop_times_table : list Row) (trips_table : pydict)
    (results : by_line) :
  stop_times self = Some stop_times_table →
  trips self = Some trips_table →
  get_next_departures self now stop_id = Ok results →
  ∃ departures_all,
    for_each (stop_time_departure trips_table (now / DAY_MICROS) stop_id)
             stop_times_table = Ok departures_all
    ∧ (∀ line,
         results !! line =
         nonempty (take 2
           (filter (in_pool_today self now (now / DAY_MICROS) line)
                   (sort_by dep_datetime departures_all)
            ++ (shift_to (now / DAY_MICROS + 1) <$>
                  filter (in_pool_tomorrow self (now / DAY_MICROS + 1) line)
                         (sort_by dep_datetime departures_all)))))
    ∧ (∀ k, filter (λ dep, dep_datetime dep = k) (sort_by dep_datetime departures_all)
            = filter (λ dep, dep_datetime dep = k) departures_all)
    ∧ sort_by dep_datetime departures_all ≡ₚ departures_all.
Proof.
  intros Hs Ht H.
  destruct (get_next_departures_lookup _ _ _ _ _ _ Hs Ht H) as (departures_all & Hall & Hres).
  exists departures_all. split_and!.
  - exact Hall.
  - intros line. rewrite Hres. unfold pool_today, pool_tomorrow.
    pose proof (sort_by_sorted dep_datetime departures_all) as Hsorted.
    rewrite (sort_by_sorted_id dep_datetime (filter _ _))
      by by apply filter_sorted.
    rewrite (sort_by_sorted_id dep_datetime (shift_to _ <$> _)); [reflexivity|].
    apply (shift_to_sorted _ (now / DAY_MICROS)); [|by apply filter_sorted].
    apply Forall_forall. intros dep [_ Hdep%elem_of_sort_by]%list_elem_of_filter.
    by eapply departures_all_today.
  - intros k. apply sort_by_stable.
  - apply sort_by_perm.
Qed.

Lemma next_departures_keep_table_order_witness :
  ∃ departures_all,
    returned (get_next_departures scenario_B (at_time 2024 3 14 23 55 0) "X") !! Some "7"
    = nonempty (take 2
        (filter (in_pool_today scenario_B (at_time 2024 3 14 23 55 0)
                   (at_time 2024 3 14 23 55 0 / DAY_MICROS) (Some "7"))
                (sort_by dep_datetime departures_all)
         ++ (shift_to (at_time 2024 3 14 23 55 0 / DAY_MICROS + 1) <$>
               filter (in_pool_tomorrow scenario_B
                         (at_time 2024 3 14 23 55 0 / DAY_MICROS + 1) (Some "7"))
                      (sort_by dep_datetime departures_all)))).
Proof.
  destruct (next_departures_keep_table_order scenario_B (at_time 2024 3 14 23 55 0) "X"
              [stop_time_row "T1" "X" "23:50:00"; stop_time_row "T2" "X" "06:00:00"]
              [trip_row "T1" "7" "Dworzec" "D14"; trip_row "T2" "7" "Dworzec" "D15"]
              (returned (get_next_departures scenario_B (at_time 2024 3 14 23 55 0) "X")))
    as (departures_all & _ & Hlines & _).
  - reflexivity.
  - reflexivity.
  - exact get_next_departures_returned_scenario_B.
  - exists departures_all. apply Hlines.
Defined.

(** ** Where the events of [get_departures_for_week] come from *)

Lemma dict_lookup_elem_of (k : option string) (d : pydict) (v : Row) :
  dict_lookup k d = Some v → (k, v) ∈ d.
Proof.
  induction d as [|[k' v'] d IH]; simpl; [discriminate|].
  case_decide as Hk.
  - intros [= ->]. subst. left.
  - intros H. right. by apply IH.
Qed.

Lemma stop_time_event_inv (utcoffset : Z → Z) (capitalize : string → string)
    (self : GTFSParser) (now : Z) (line stop_id : string) (current_day : Z)
    (trip_id : option string) (trip stop_time : Row) (evs : list event) (e : event) :
  stop_time_event utcoffset capitalize self now line stop_id current_day
    trip_id trip stop_time = Ok evs →
  e ∈ evs →
  ∃ s dep_time h stops_table stop,
    is_stop_time_of stop_time stop_id trip_id s dep_time
    ∧ row_get_default trip "trip_headsign" "Nieznany kierunek" = Some h
    ∧ stops self = Some stops_table
    ∧ dict_lookup (Some stop_id) stops_table = Some stop
    ∧ ¬ current_day * DAY_MICROS + dep_time + 60 * MICROS < now
    ∧ e = {| title := event_title line (str_replace "/" " " (capitalize h));
             start := isoformat utcoffset (current_day * DAY_MICROS + dep_time);
             end_ := isoformat utcoffset
                       (current_day * DAY_MICROS + dep_time + 60 * MICROS);
             description := event_title line (str_replace "/" " " (capitalize h));
             ev_line := line;
             latitude := stop_get stop "stop_lat" PyFloat0;
             longitude := stop_get stop "stop_lon" PyFloat0;
             stop_name := stop_get stop "stop_name" (PyStr "Nieznany");
             stop_code := stop_get stop "stop_code" (PyStr "") |}.
Proof.
  unfold stop_time_event, row_item, parse_or_skip, strptime_cell, headsign, data_item.
  intros H Hin.
  destruct (stop_time !! "trip_id") as [tid|] eqn:Htid;
    cbn [mbind result_bind] in H; [|discriminate].
  case_decide as Htrip; [subst tid|injection H as <-; by apply elem_of_nil in Hin].
  destruct (stop_time !! "stop_id") as [sid|] eqn:Hsid;
    cbn [mbind result_bind] in H; [|discriminate].
  case_decide as Hstop; [subst sid|injection H as <-; by apply elem_of_nil in Hin].
  destruct (stop_time !! "departure_time") as [[s|]|] eqn:Hdep;
    cbn [mbind result_bind] in H; try discriminate.
  destruct (strptime_HMS s) as [dep_time|[]] eqn:Hparse;
    cbn [mbind result_bind] in H; try discriminate;
    [|injection H as <-; by apply elem_of_nil in Hin].
  destruct (Z.ltb_spec (current_day * DAY_MICROS + dep_time + 60 * MICROS) now);
    [injection H as <-; by apply elem_of_nil in Hin|].
  destruct (row_get_default trip "trip_headsign" "Nieznany kierunek") as [h|] eqn:Hh;
    cbn [mbind result_bind] in H; [|discriminate].
  destruct (stops self) as [stops_table|] eqn:Hstops;
    cbn [mbind result_bind] in H; [|discriminate].
  destruct (dict_lookup (Some stop_id) stops_table) as [stop|] eqn:Hlookup;
    cbn [mbind result_bind] in H; [|discriminate].
  injection H as <-. apply list_elem_of_singleton in Hin as ->.
  exists s, dep_time, h, stops_table, stop. split_and!; try done. lia.
Qed.

(** X5.  Every event returned by [get_departures_for_week] comes from a
    stop time that runs: there are one of the seven dates, a trip of the
    asked line whose service is active on that date, and a stop-time row of
    that trip at the asked stop whose time parses, such that the event
    starts at that time on that date; the event names the asked line, and
    its title and its description are the same text built from the line and
    the trip's capitalised headsign with slashes replaced. *)
Theorem week_events_come_from_active_trips (utcoffset : Z → Z)
    (capitalize : string → string) (self : GTFSParser) (now_today now : Z)
    (line stop_id : string) (events : list event) (e : event) :
  get_departures_for_week utcoffset capitalize self now_today now line stop_id
  = Ok events →
  e ∈ events →
  ∃ trips_table day_offset trip_id trip stop_time s dep_time h,
    trips self = Some trips_table
    ∧ 0 ≤ day_offset < 7
    ∧ (trip_id, trip) ∈ trips_table
    ∧ row_get trip "route_id" = Some line
    ∧ service_is_active_on_date self (row_get trip "service_id")
        (date_of now_today + day_offset) = Ok true
    ∧ stop_time ∈ default [] (stop_times self)
    ∧ is_stop_time_of stop_time stop_id trip_id s dep_time
    ∧ wall (start e) = (date_of now_today + day_offset) * DAY_MICROS + dep_time
    ∧ ev_line e = line
    ∧ row_get_default trip "trip_headsign" "Nieznany kierunek" = Some h
    ∧ title e = event_title line (str_replace "/" " " (capitalize h))
    ∧ description e = title e.
Proof.
  intros H Hin.
  apply get_departures_for_week_events in H as (unsorted & Hun & ->).
  apply elem_of_sort_by in Hin.
  apply (for_each_elem_of _ _ _ e Hun) in Hin as (day_offset & evs1 & Hday & Hd & Hin).
  apply elem_of_seqZ in Hday.
  unfold day_events in Hd. apply bind_Ok in Hd as (trips_table & Htrips & Hd).
  apply (for_each_elem_of _ _ _ e Hd) in Hin as ([trip_id trip] & evs2 & Htrip & Ht & Hin).
  unfold trip_events in Ht.
  case_decide as Hroute; [|injection Ht as <-; by apply elem_of_nil in Hin].
  apply bind_Ok in Ht as ([] & Hactive & Ht);
    [|injection Ht as <-; by apply elem_of_nil in Hin].
  apply (for_each_elem_of _ _ _ e Ht) in Hin as (stop_time & evs3 & Hst & Hs & Hin).
  destruct (stop_time_event_inv _ _ _ _ _ _ _ _ _ _ _ _ Hs Hin)
    as (s & dep_time & h & stops_table & stop & Hrow & Hh & _ & _ & _ & ->).
  exists trips_table, day_offset, trip_id, trip, stop_time, s, dep_time, h.
  unfold data_item in Htrips. destruct (trips self); [|discriminate].
  injection Htrips as ->. unfold date_of.
  split_and!; try done; lia.
Qed.

Lemma get_departures_for_week_returned_overflow :
  ∃ events,
    get_departures_for_week central_european_time (λ s, s) with_overflow_time
      (at_time 2024 3 14 23 40 0) (at_time 2024 3 14 23 40 0) "7" "X" = Ok events
    ∧ ∃ e, head events = Some e.
Proof.
  destruct (get_departures_for_week central_european_time (λ s, s) with_overflow_time
              (at_time 2024 3 14 23 40 0) (at_time 2024 3 14 23 40 0) "7" "X")
    as [events|err] eqn:Hres; [|vm_compute in Hres; discriminate].
  exists events. split; [reflexivity|].
  destruct events as [|e events]; [vm_compute in Hres; discriminate|].
  by exists e.
Defined.

Lemma week_events_come_from_active_trips_witness :
  ∃ e trip, row_get trip "route_id" = Some "7" ∧ ev_line e = "7".
Proof.
  destruct get_departures_for_week_returned_overflow as (events & Hres & e & He).
  destruct (week_events_come_from_active_trips central_european_time (λ s, s)
              with_overflow_time (at_time 2024 3 14 23 40 0) (at_time 2024 3 14 23 40 0)
              "7" "X" events e Hres)
    as (trips_table & day_offset & trip_id & trip & stop_time & s & dep_time & h
        & _ & _ & _ & Hroute & _ & _ & _ & _ & Hline & _).
  - destruct events; [discriminate|]. injection He as ->. left.
  - exists e, trip. split; [exact Hroute | exact Hline].
Defined.

(** X6.  The sort of the week's events is stable: the returned list is a
    rearrangement of the events in the order the loops met them (date by
    date, trip by trip, row by row), and events that start at the same
    instant stay in that order. *)
Theorem week_events_keep_encounter_order (utcoffset : Z → Z)
    (capitalize : string → string) (self : GTFSParser) (now_today now : Z)
    (line stop_id : string) (events : list event) :
  get_departures_for_week utcoffset capitalize self now_today now line stop_id
  = Ok events →
  ∃ met,
    for_each (day_events utcoffset capitalize self (now_today / DAY_MICROS) now
                line stop_id) (seqZ 0 7) = Ok met
    ∧ events ≡ₚ met
    ∧ ∀ k, filter (λ e, instant (start e) = k) events
           = filter (λ e, instant (start e) = k) met.
Proof.
  intros H. apply get_departures_for_week_events in H as (unsorted & Hun & ->).
  exists unsorted. split_and!.
  - exact Hun.
  - apply sort_by_perm.
  - intros k. apply (sort_by_stable (λ e, instant (start e))).
Qed.

Lemma week_events_keep_encounter_order_witness :
  ∃ events met : list event, events ≡ₚ met ∧ ∃ e, head events = Some e.
Proof.
  destruct get_departures_for_week_returned_overflow as (events & Hres & He).
  destruct (week_events_keep_encounter_order central_european_time (λ s, s)
              with_overflow_time (at_time 2024 3 14 23 40 0) (at_time 2024 3 14 23 40 0)
              "7" "X" events Hres) as (met & _ & Hperm & _).
  exists events, met. split; [exact Hperm | exact He].
Defined.

(** ** When [get_departures_for_week] cannot return *)

Lemma week_event_stop_known (utcoffset : Z → Z) (capitalize : string → string)
    (self : GTFSParser) (now_today now : Z) (line stop_id : string)
    (events : list event) (e : event) :
  get_departures_for_week utcoffset capitalize self now_today now line stop_id
  = Ok events →
  e ∈ events →
  ∃ stops_table stop,
    stops self = Some stops_table
    ∧ dict_lookup (Some stop_id) stops_table = Some stop
    ∧ stop_name e = stop_get stop "stop_name" (PyStr "Nieznany")
    ∧ stop_code e = stop_get stop "stop_code" (PyStr "")
    ∧ latitude e = stop_get stop "stop_lat" PyFloat0
    ∧ longitude e = stop_get stop "stop_lon" PyFloat0.
Proof.
  intros H Hin.
  apply get_departures_for_week_events in H as (unsorted & Hun & ->).
  apply elem_of_sort_by in Hin.
  apply (for_each_elem_of _ _ _ e Hun) in Hin as (day_offset & evs1 & _ & Hd & Hin).
  unfold day_events in Hd. apply bind_Ok in Hd as (trips_table & _ & Hd).
  apply (for_each_elem_of _ _ _ e Hd) in Hin as ([trip_id trip] & evs2 & _ & Ht & Hin).
  unfold trip_events in Ht.
  case_decide; [|injection Ht as <-; by apply elem_of_nil in Hin].
  apply bind_Ok in Ht as ([] & _ & Ht);
    [|injection Ht as <-; by apply elem_of_nil in Hin].
  apply (for_each_elem_of _ _ _ e Ht) in Hin as (stop_time & evs3 & _ & Hs & Hin).
  destruct (stop_time_event_inv _ _ _ _ _ _ _ _ _ _ _ _ Hs Hin)
    as (s & dep_time & h & stops_table & stop & _ & _ & Hstops & Hlookup & _ & ->).
  exists stops_table, stop. by split_and!.
Qed.

(** X7.  [get_departures_for_week] has no guard on the loaded tables: it
    raises [KeyError] when no trips table is loaded, and it cannot return a
    list for a stop that is not in the stops table as soon as one stop time
    of the line at that stop qualifies in the window.  Every event it does
    return carries the name, code and coordinates of the stop's row. *)
Theorem week_schedule_needs_trips_and_stop :
  (∀ (utcoffset : Z → Z) (capitalize : string → string) (self : GTFSParser)
     (now_today now : Z) (line stop_id : string),
     trips self = None →
     get_departures_for_week utcoffset capitalize self now_today now line stop_id
     = Raise KeyError)
  ∧ (∀ (utcoffset : Z → Z) (capitalize : string → string) (self : GTFSParser)
       (now_today now : Z) (line stop_id : string)
       (trips_table : pydict) (stop_times_table : list Row) (day_offset : Z)
       (trip_id : option string) (trip stop_time : Row) (s : string) (dep_time : Z),
       0 ≤ day_offset < 7 →
       trips self = Some trips_table →
       (trip_id, trip) ∈ trips_table →
       row_get trip "route_id" = Some line →
       service_is_active_on_date self (row_get trip "service_id")
         (date_of now_today + day_offset) = Ok true →
       stop_times self = Some stop_times_table →
       stop_time ∈ stop_times_table →
       is_stop_time_of stop_time stop_id trip_id s dep_time →
       ¬ (date_of now_today + day_offset) * DAY_MICROS + dep_time + 60 * MICROS < now →
       (∀ stops_table, stops self = Some stops_table →
                       dict_lookup (Some stop_id) stops_table = None) →
       ∀ events,
         get_departures_for_week utcoffset capitalize self now_today now line stop_id
         ≠ Ok events)
  ∧ (∀ (utcoffset : Z → Z) (capitalize : string → string) (self : GTFSParser)
       (now_today now : Z) (line stop_id : string) (events : list event) (e : event),
       get_departures_for_week utcoffset capitalize self now_today now line stop_id
       = Ok events →
       e ∈ events →
       ∃ stops_table stop,
         stops self = Some stops_table
         ∧ dict_lookup (Some stop_id) stops_table = Some stop
         ∧ stop_name e = stop_get stop "stop_name" (PyStr "Nieznany")
         ∧ stop_code e = stop_get stop "stop_code" (PyStr "")
         ∧ latitude e = stop_get stop "stop_lat" PyFloat0
         ∧ longitude e = stop_get stop "stop_lon" PyFloat0).
Proof.
  split_and!.
  - intros utcoffset capitalize self now_today now line stop_id Htrips.
    unfold get_departures_for_week.
    change (seqZ 0 7) with [0; 1; 2; 3; 4; 5; 6].
    cbn [for_each].
    assert (day_events utcoffset capitalize self (now_today / DAY_MICROS) now
              line stop_id 0 = Raise KeyError) as ->
      by (unfold day_events; by rewrite Htrips).
    reflexivity.
  - intros utcoffset capitalize self now_today now line stop_id trips_table
      stop_times_table day_offset trip_id trip stop_time s dep_time
      Hday Htrips Htrip Hroute Hactive Hsts Hst (Hsid & Htid & Hdep & Hparse) Hlive
      Hmissing events H.
    destruct (week_event_qualifying utcoffset capitalize _ _ _ _ _ _ _ _ _ _ _ _ _ _
                H Hday Htrips Htrip Hroute Hactive Hsts Hst Htid Hsid Hdep Hparse Hlive)
      as (e & Hin & _).
    destruct (week_event_stop_known _ _ _ _ _ _ _ _ _ H Hin)
      as (stops_table & stop & Hstops & Hlookup & _).
    rewrite (Hmissing _ Hstops) in Hlookup. discriminate.
  - intros. by eapply week_event_stop_known.
Qed.

Lemma week_schedule_needs_trips_and_stop_witness :
  get_departures_for_week central_european_time (λ s, s) no_tables
    (at_time 2024 3 14 23 40 0) (at_time 2024 3 14 23 40 0) "7" "X" = Raise KeyError.
Proof.
  destruct week_schedule_needs_trips_and_stop as (no_trips & _ & _).
  apply no_trips. reflexivity.
Defined.

(** ** The two queries agree *)

Lemma row_cell_present (row : Row) (k d : string) (v : option string) :
  row !! k = Some v → row_get_default row k d = v ∧ row_get row k = v.
Proof. unfold row_get_default, row_get. by intros ->. Qed.

(** X8.  The sensor and the calendar of a line show the same departures:
    when both queries return for the same reading of the clock, every
    departure that [get_next_departures] lists for a line at a stop is the
    start of an event of [get_departures_for_week] for that line and stop.
    It holds for feeds in which every stop time of the stop refers to a
    trip of the trips table that has its [route_id] and [service_id]
    cells. *)
Theorem next_departures_are_week_events (utcoffset : Z → Z)
    (capitalize : string → string) (self : GTFSParser) (now : Z)
    (line stop_id : string) (stop_times_table : list Row) (trips_table : pydict)
    (results : by_line) (events : list event) (deps : list departure)
    (dep : departure) :
  stop_times self = Some stop_times_table →
  trips self = Some trips_table →
  (∀ row trip_id,
     row ∈ stop_times_table →
     row !! "stop_id" = Some (Some stop_id) →
     row !! "trip_id" = Some trip_id →
     ∃ trip, dict_lookup trip_id trips_table = Some trip
             ∧ is_Some (trip !! "route_id") ∧ is_Some (trip !! "service_id")) →
  get_next_departures self now stop_id = Ok results →
  get_departures_for_week utcoffset capitalize self now now line stop_id = Ok events →
  results !! Some line = Some deps →
  dep ∈ deps →
  ∃ e, e ∈ events ∧ wall (start e) = dep_datetime dep.
Proof.
  intros Hs Ht Hintegrity Hnext Hweek Hline Hin.
  destruct (next_departures_entry _ _ _ _ _ _ _ _ _ Hs Ht Hnext Hline Hin)
    as (departures_all & Hall & Hcases).
  assert (∃ dep0 day_offset,
            dep0 ∈ departures_all ∧ 0 ≤ day_offset < 7
            ∧ dep_line dep0 = Some line
            ∧ service_is_active_on_date self (dep_service_id dep0)
                (now / DAY_MICROS + day_offset) = Ok true
            ∧ dep_datetime dep
              = (now / DAY_MICROS + day_offset) * DAY_MICROS
                + (dep_datetime dep0 - now / DAY_MICROS * DAY_MICROS)
            ∧ now ≤ dep_datetime dep)
    as (dep0 & day_offset & Hdep0 & Hday & Hl & Hactive & Hdt & Hnow).
  { destruct Hcases as [[Hdep (Hl & Hnow & Ha)] | (dep0 & Hdep0 & [Hl Ha] & ->)].
    - exists dep, 0. rewrite Z.add_0_r. split_and!; try done; lia.
    - exists dep0, 1.
      pose proof (departures_all_today _ _ _ _ _ _ Hall Hdep0) as Hd.
      pose proof (now_before_tomorrow now).
      rewrite (shift_to_datetime _ (now / DAY_MICROS)) by exact Hd.
      split_and!; try done; lia. }
  pose proof (departures_all_today _ _ _ _ _ _ Hall Hdep0) as Hd0.
  apply (for_each_elem_of _ _ _ dep0 Hall) in Hdep0 as (row & ys & Hrow & Hbody & Hin0).
  destruct (stop_time_departure_inv _ _ _ _ _ _ Hbody Hin0)
    as (trip_id & s & dep_time & h & (Hsid & Htid & Hdep & Hparse) & Hh & ->).
  cbn [dep_line dep_service_id dep_datetime] in *.
  destruct (Hintegrity row trip_id Hrow Hsid Htid)
    as (trip & Hlookup & [route Hroute] & [service Hservice]).
  assert (trip_info_of trips_table trip_id = trip) as Hinfo
    by (unfold trip_info_of; by rewrite Hlookup).
  rewrite Hinfo in Hl, Hactive.
  destruct (row_cell_present trip "route_id" "Nieznana" route Hroute) as [Hr1 Hr2].
  destruct (row_cell_present trip "service_id" "" service Hservice) as [Hs1 Hs2].
  rewrite Hr1 in Hl. rewrite Hs1 in Hactive.
  assert (row_get trip "route_id" = Some line) as Hroute' by (rewrite Hr2; exact Hl).
  assert (service_is_active_on_date self (row_get trip "service_id")
            (now / DAY_MICROS + day_offset) = Ok true) as Hactive'
    by (rewrite Hs2; exact Hactive).
  assert (¬ (now / DAY_MICROS + day_offset) * DAY_MICROS + dep_time + 60 * MICROS < now)
    as Hlive by (unfold MICROS; lia).
  destruct (week_event_qualifying utcoffset capitalize self now now line stop_id events
              trips_table stop_times_table day_offset trip_id trip row s dep_time
              Hweek Hday Ht (dict_lookup_elem_of _ _ _ Hlookup) Hroute' Hactive'
              Hs Hrow Htid Hsid Hdep Hparse Hlive)
    as (e & He & Hwall).
  exists e. split; [exact He|]. rewrite Hwall, Hdt. lia.
Qed.

Lemma next_departures_are_week_events_witness :
  ∃ e, wall (start e) = dep_datetime (tomorrow_0600 "S").
Proof.
  destruct (get_departures_for_week central_european_time (λ s, s) one_trip_both_days
              (at_time 2024 3 14 23 55 0) (at_time 2024 3 14 23 55 0) "7" "X")
    as [events|err] eqn:Hweek; [|vm_compute in Hweek; discriminate].
  assert (get_next_departures one_trip_both_days (at_time 2024 3 14 23 55 0) "X"
          = Ok (returned (get_next_departures one_trip_both_days
                            (at_time 2024 3 14 23 55 0) "X"))) as Hnext.
  { destruct (get_next_departures one_trip_both_days (at_time 2024 3 14 23 55 0) "X")
      as [results|err] eqn:Hres; [reflexivity | vm_compute in Hres; discriminate]. }
  destruct (next_departures_are_week_events central_european_time (λ s, s)
              one_trip_both_days (at_time 2024 3 14 23 55 0) "7" "X"
              [stop_time_row "T1" "X" "23:50:00"; stop_time_row "T1" "X" "06:00:00"]
              [trip_row "T1" "7" "Dworzec" "S"]
              (returned (get_next_departures one_trip_both_days
                           (at_time 2024 3 14 23 55 0) "X"))
              events
              [tomorrow_0600 "S";
               {| dep_line := Some "7"; dep_direction := "Dworzec";
                  dep_service_id := Some "S";
                  dep_departure_time := "2024-03-15 23:50:00";
                  dep_datetime := at_time 2024 3 15 23 50 0 |}]
              (tomorrow_0600 "S")) as (e & _ & Hwall).
  - reflexivity.
  - reflexivity.
  - intros row trip_id Hrow _ Htid.
    exists (trip_row "T1" "7" "Dworzec" "S").2.
    assert (trip_id = Some "T1") as ->.
    { apply elem_of_cons in Hrow as [-> | Hrow];
        [|apply list_elem_of_singleton in Hrow as ->];
        vm_compute in Htid; congruence. }
    split_and!; [reflexivity | vm_compute; eauto | vm_compute; eauto].
  - exact Hnext.
  - exact Hweek.
  - vm_compute. reflexivity.
  - left.
  - exists e. exact Hwall.
Defined.

(** ** What [load_data] leaves in the parser *)

Lemma dict_set_lookup (k k' : option string) (v : Row) (d : pydict) :
  dict_lookup k (dict_set k' v d) = if decide (k' = k) then Some v else dict_lookup k d.
Proof.
  induction d as [|[k0 v0] d IH]; simpl.
  - reflexivity.
  - destruct (decide (k0 = k')) as [->|Hk0]; simpl.
    + destruct (decide (k' = k)); reflexivity.
    + rewrite IH. destruct (decide (k0 = k)) as [->|]; [|reflexivity].
      by rewrite decide_False.
Qed.

Lemma dict_set_keys (k : option string) (v : Row) (d : pydict) :
  NoDup d.*1 → NoDup (dict_set k v d).*1
  ∧ ∀ k', k' ∈ (dict_set k v d).*1 ↔ k' = k ∨ k' ∈ d.*1.
Proof.
  induction d as [|[k0 v0] d IH]; simpl; intros Hnd.
  - split; [apply NoDup_singleton|]. intros k'. rewrite list_elem_of_singleton.
    split; [by left | intros [?|?%elem_of_nil]; done].
  - apply NoDup_cons in Hnd as [Hk0 Hnd]. destruct (IH Hnd) as [IHnd IHin].
    destruct (decide (k0 = k)) as [->|Hne]; simpl.
    + split; [by apply NoDup_cons|]. intros k'. rewrite elem_of_cons. tauto.
    + split.
      * apply NoDup_cons. split; [|exact IHnd]. rewrite IHin. intros [?|?]; done.
      * intros k'. rewrite !elem_of_cons, IHin. tauto.
Qed.

Lemma index_by_lookup (key : string) (rows : list Row) (acc d : pydict)
    (k : option string) :
  index_by key rows acc = Ok d →
  dict_lookup k d =
  match last (filter (λ row, row !! key = Some k) rows) with
  | Some row => Some row
  | None => dict_lookup k acc
  end.
Proof.
  revert acc. induction rows as [|row rows IH]; simpl; intros acc H.
  - by injection H as <-.
  - unfold row_item in H. destruct (row !! key) as [k0|] eqn:Hk0; [|discriminate].
    cbn [mbind result_bind] in H. rewrite (IH _ H), dict_set_lookup.
    destruct (decide (k0 = k)) as [->|Hne].
    + rewrite filter_cons_True by done.
      destruct (filter _ rows) as [|r rs]; [reflexivity|].
      rewrite last_cons_cons. destruct (last (r :: rs)) eqn:Hlast; [reflexivity|].
      by apply last_None in Hlast.
    + rewrite filter_cons_False by congruence. reflexivity.
Qed.

Lemma index_by_keys (key : string) (rows : list Row) (acc d : pydict) :
  index_by key rows acc = Ok d →
  NoDup acc.*1 →
  NoDup d.*1
  ∧ ∀ k, k ∈ d.*1 ↔ k ∈ acc.*1 ∨ ∃ row, row ∈ rows ∧ row !! key = Some k.
Proof.
  revert acc. induction rows as [|row rows IH]; simpl; intros acc H Hnd.
  - injection H as <-. split; [exact Hnd|]. intros k. split; [by left|].
    intros [?|(row & ?%elem_of_nil & _)]; done.
  - unfold row_item in H. destruct (row !! key) as [k0|] eqn:Hk0; [|discriminate].
    cbn [mbind result_bind] in H.
    destruct (dict_set_keys k0 row acc Hnd) as [Hnd' Hin'].
    destruct (IH _ H Hnd') as [Hd Hin]. split; [exact Hd|].
    intros k. rewrite Hin, Hin'. split.
    + intros [[-> | Hacc] | (r & Hr & Hk)].
      * right. exists row. split; [left | exact Hk0].
      * by left.
      * right. exists r. split; [by right | exact Hk].
    + intros [Hacc | (r & [-> | Hr]%elem_of_cons & Hk)].
      * left. by right.
      * left. left. congruence.
      * right. eauto.
Qed.

(** X9.  The tables keyed by an identifier keep one row per identifier:
    indexing the rows of a table by a column, as [load_data] does for stops
    and trips, gives a dict without repeated keys whose keys are exactly the
    identifiers that occur, and the row found under an identifier is the
    last row of the table that carries it. *)
Theorem index_by_last_row_wins (key : string) (rows : list Row) (d : pydict) :
  index_by key rows [] = Ok d →
  NoDup d.*1
  ∧ (∀ k, k ∈ d.*1 ↔ ∃ row, row ∈ rows ∧ row !! key = Some k)
  ∧ (∀ k, dict_lookup k d = last (filter (λ row, row !! key = Some k) rows)).
Proof.
  intros H. destruct (index_by_keys key rows [] d H (NoDup_nil_2)) as [Hnd Hin].
  split_and!; [exact Hnd | |].
  - intros k. rewrite Hin. split; [intros [?%elem_of_nil|?]; done | by right].
  - intros k. rewrite (index_by_lookup key rows [] d k H).
    by destruct (last _).
Qed.

Lemma index_by_last_row_wins_witness :
  ∃ d,
    index_by "stop_id"
      [(stop_row "X" "Plac").2; (stop_row "Y" "Rynek").2; (stop_row "X" "Dworzec").2] []
    = Ok d
    ∧ dict_lookup (Some "X") d
      = last (filter (λ row, row !! "stop_id" = Some (Some "X"))
                [(stop_row "X" "Plac").2; (stop_row "Y" "Rynek").2;
                 (stop_row "X" "Dworzec").2]).
Proof.
  eexists. split; [reflexivity|].
  apply (index_by_last_row_wins "stop_id"
           [(stop_row "X" "Plac").2; (stop_row "Y" "Rynek").2;
            (stop_row "X" "Dworzec").2]).
  reflexivity.
Defined.

Lemma load_data_success (env : Env) (self self' : GTFSParser) :
  load_data env self = (true, self') →
  ∃ z stops_rows stop_times_rows trips_rows stops_dict trips_dict,
    gtfs_file env = Some (Some z)
    ∧ z !! "stops.txt" = Some (Some stops_rows)
    ∧ index_by "stop_id" stops_rows [] = Ok stops_dict
    ∧ z !! "stop_times.txt" = Some (Some stop_times_rows)
    ∧ z !! "trips.txt" = Some (Some trips_rows)
    ∧ index_by "trip_id" trips_rows [] = Ok trips_dict
    ∧ self' = {| stops := Some stops_dict;
                 stop_times := Some stop_times_rows;
                 trips := Some trips_dict;
                 calendar := Some match calendar_file env with
                                  | Some (Some rows) => rows
                                  | _ => []
                                  end;
                 calendar_dates := Some match z !! "calendar_dates.txt" with
                                        | Some (Some rows) => rows
                                        | _ => []
                                        end |}.
Proof.
  unfold load_data.
  destruct (gtfs_file env) as [[z|]|]; try (intros [=]; fail).
  destruct (forallb _ required_files); [|intros [=]].
  unfold load_tables, read_member.
  destruct (z !! "stops.txt") as [[stops_rows|]|] eqn:E1; cbn [mbind result_bind];
    try (intros [=]; fail).
  destruct (index_by "stop_id" stops_rows []) as [stops_dict|] eqn:I1; [|intros [=]].
  destruct (z !! "stop_times.txt") as [[stop_times_rows|]|] eqn:E2;
    try (intros [=]; fail).
  destruct (z !! "trips.txt") as [[trips_rows|]|] eqn:E3; cbn [mbind result_bind];
    try (intros [=]; fail).
  destruct (index_by "trip_id" trips_rows []) as [trips_dict|] eqn:I3; [|intros [=]].
  destruct (calendar_file env) as [[calendar_rows|]|]; try (intros [=]; fail);
    destruct (z !! "calendar_dates.txt") as [[exception_rows|]|] eqn:E5;
    try (intros [=]; fail);
    intros [= <-];
    exists z, stops_rows, stop_times_rows, trips_rows, stops_dict, trips_dict;
    rewrite ?E5; split_and!; (reflexivity || assumption).
Qed.

(** X10.  A successful load replaces every table of [self.data]: after it
    the five tables are all loaded and hold what the archive and the local
    calendar file hold (stops and trips indexed by their identifier, an
    absent calendar file or exceptions member as an empty table), so a load
    of the same files started with any other tables ends with the same
    five.  (This is about the tables that the queries read; the name map
    [stop_id_map], which a load adds to and never clears, is no part of
    [self.data].) *)
Theorem successful_load_replaces_every_table (env : Env) (self self' : GTFSParser) :
  load_data env self = (true, self') →
  (∃ z stops_rows stop_times_rows trips_rows stops_dict trips_dict,
     gtfs_file env = Some (Some z)
     ∧ z !! "stops.txt" = Some (Some stops_rows)
     ∧ z !! "stop_times.txt" = Some (Some stop_times_rows)
     ∧ z !! "trips.txt" = Some (Some trips_rows)
     ∧ index_by "stop_id" stops_rows [] = Ok stops_dict
     ∧ index_by "trip_id" trips_rows [] = Ok trips_dict
     ∧ stops self' = Some stops_dict
     ∧ stop_times self' = Some stop_times_rows
     ∧ trips self' = Some trips_dict
     ∧ calendar self' = Some match calendar_file env with
                             | Some (Some rows) => rows
                             | _ => []
                             end
     ∧ calendar_dates self' = Some match z !! "calendar_dates.txt" with
                                   | Some (Some rows) => rows
                                   | _ => []
                                   end)
  ∧ ∀ other : GTFSParser,
      (load_data env other).1 = true
      ∧ stops (load_data env other).2 = stops self'
      ∧ stop_times (load_data env other).2 = stop_times self'
      ∧ trips (load_data env other).2 = trips self'
      ∧ calendar (load_data env other).2 = calendar self'
      ∧ calendar_dates (load_data env other).2 = calendar_dates self'.
Proof.
  intros H.
  destruct (load_data_success env self self' H)
    as (z & stops_rows & stop_times_rows & trips_rows & stops_dict & trips_dict
        & Hz & H1 & I1 & H2 & H3 & I3 & ->).
  split.
  - exists z, stops_rows, stop_times_rows, trips_rows, stops_dict, trips_dict.
    by split_and!.
  - intros other.
    match type of H with _ = (true, ?loaded) =>
      assert (load_data env other = (true, loaded)) as ->; [|by split_and!]
    end.
    unfold load_data. rewrite Hz.
    assert (forallb (λ file, bool_decide (file ∈ dom z)) required_files = true) as ->.
    { apply required_files_present. rewrite H1, H2, H3. eauto. }
    unfold load_tables, read_member. rewrite H1, H2, H3.
    cbn [mbind result_bind]. rewrite I1, I3.
    destruct (calendar_file env) as [[calendar_rows|]|] eqn:E4;
      destruct (z !! "calendar_dates.txt") as [[exception_rows|]|] eqn:E5;
      try reflexivity;
      exfalso; revert H; unfold load_data, load_tables, read_member;
      rewrite Hz, H1, H2, H3; cbn [mbind result_bind]; rewrite I1, I3, ?E4, ?E5;
      destruct (forallb _ required_files); discriminate.
Qed.

Lemma successful_load_replaces_every_table_witness :
  calendar (load_data empty_tables_env scenario_A).2 = Some []
  ∧ calendar_dates (load_data empty_tables_env scenario_A).2 = Some []
  ∧ stops (load_data empty_tables_env no_tables).2
    = stops (load_data empty_tables_env scenario_A).2.
Proof.
  destruct (successful_load_replaces_every_table empty_tables_env scenario_A
              (load_data empty_tables_env scenario_A).2)
    as ((z & stops_rows & stop_times_rows & trips_rows & stops_dict & trips_dict
         & Hz & _ & _ & _ & _ & _ & _ & _ & _ & Hcalendar & Hdates)
        & Hother).
  - reflexivity.
  - cbn [gtfs_file empty_tables_env] in Hz. injection Hz as Hz. subst z.
    destruct (Hother no_tables) as (_ & Hstops & _).
    split; [exact Hcalendar|]. split; [exact Hdates | exact Hstops].
Defined.

(** X11.  A failed load is not all-or-nothing.  When the archive is
    missing, is not a ZIP archive or lacks a required table, the parser is
    left as it was.  When the failure comes later, the tables read before it
    have already been replaced: with an unreadable trips table the parser
    holds the new stops and stop times beside the old trips and calendars;
    with an unreadable exceptions table it holds every new table beside the
    old exceptions. *)
Theorem failed_load_keeps_replaced_tables (env : Env) (self : GTFSParser) :
  (gtfs_file env = None ∨ gtfs_file env = Some None
   ∨ (∃ z, gtfs_file env = Some (Some z)
           ∧ (z !! "stops.txt" = None ∨ z !! "stop_times.txt" = None
              ∨ z !! "trips.txt" = None)) →
   load_data env self = (false, self))
  ∧ (∀ z stops_rows stops_dict stop_times_rows,
       gtfs_file env = Some (Some z) →
       z !! "stops.txt" = Some (Some stops_rows) →
       index_by "stop_id" stops_rows [] = Ok stops_dict →
       z !! "stop_times.txt" = Some (Some stop_times_rows) →
       (z !! "trips.txt" = Some None
        ∨ ∃ trips_rows, z !! "trips.txt" = Some (Some trips_rows)
                        ∧ ¬ all_have "trip_id" trips_rows) →
       load_data env self
       = (false, set_stop_times stop_times_rows (set_stops stops_dict self)))
  ∧ (∀ z stops_rows stops_dict stop_times_rows trips_rows trips_dict,
       gtfs_file env = Some (Some z) →
       z !! "stops.txt" = Some (Some stops_rows) →
       index_by "stop_id" stops_rows [] = Ok stops_dict →
       z !! "stop_times.txt" = Some (Some stop_times_rows) →
       z !! "trips.txt" = Some (Some trips_rows) →
       index_by "trip_id" trips_rows [] = Ok trips_dict →
       calendar_file env ≠ Some None →
       z !! "calendar_dates.txt" = Some None →
       load_data env self
       = (false,
          set_calendar match calendar_file env with
                       | Some (Some rows) => rows
                       | _ => []
                       end
            (set_trips trips_dict
               (set_stop_times stop_times_rows (set_stops stops_dict self))))).
Proof.
  split_and!.
  - unfold load_data. intros [-> | [-> | (z & -> & Hmissing)]]; try reflexivity.
    destruct (forallb _ required_files) eqn:Hreq; [|reflexivity].
    apply required_files_present in Hreq as ([? H1] & [? H2] & [? H3]).
    destruct Hmissing as [H | [H | H]]; congruence.
  - intros z stops_rows stops_dict stop_times_rows Hz H1 I1 H2 Htrips.
    unfold load_data. rewrite Hz.
    assert (forallb (λ file, bool_decide (file ∈ dom z)) required_files = true) as ->.
    { apply required_files_present. rewrite H1, H2.
      destruct Htrips as [-> | (? & -> & _)]; eauto. }
    unfold load_tables, read_member. rewrite H1, H2. cbn [mbind result_bind].
    rewrite I1. destruct Htrips as [-> | (trips_rows & -> & Hbad)]; [reflexivity|].
    cbn [mbind result_bind].
    destruct (index_by "trip_id" trips_rows []) as [trips_dict|e] eqn:I3; [|reflexivity].
    exfalso. apply Hbad. apply (index_by_Ok _ _ []). eauto.
  - intros z stops_rows stops_dict stop_times_rows trips_rows trips_dict
      Hz H1 I1 H2 H3 I3 Hcal H5.
    unfold load_data. rewrite Hz.
    assert (forallb (λ file, bool_decide (file ∈ dom z)) required_files = true) as ->.
    { apply required_files_present. rewrite H1, H2, H3. eauto. }
    unfold load_tables, read_member. rewrite H1, H2, H3. cbn [mbind result_bind].
    rewrite I1, I3, H5.
    by destruct (calendar_file env) as [[calendar_rows|]|].
Qed.

Lemma failed_load_keeps_replaced_tables_witness :
  load_data {| gtfs_file := Some None; calendar_file := None |} scenario_A
  = (false, scenario_A).
Proof.
  destruct (failed_load_keeps_replaced_tables
              {| gtfs_file := Some None; calendar_file := None |} scenario_A)
    as [untouched _].
  apply untouched. right. left. reflexivity.
Defined.

(** ** What the resolver does with rows it cannot read *)





Lemma future_today_returned (self : GTFSParser) (now today_date : Z)
    (deps : list departure) (acc m : by_line) (dep : departure) :
  future_today self now today_date deps acc = Ok m →
  dep ∈ deps → now ≤ dep_datetime dep →
  ∃ b, service_is_active_on_date self (dep_service_id dep) today_date = Ok b.
Proof.
  revert acc. induction deps as [|d deps IH]; simpl; intros acc H Hin Hnow;
    [by apply elem_of_nil in Hin|].
  apply elem_of_cons in Hin as [-> | Hin].
  - destruct (Z.leb_spec now (dep_datetime d)); [|lia].
    apply bind_Ok in H as (b & Hb & _). eauto.
  - destruct (now <=? dep_datetime d); [|by eapply IH].
    apply bind_Ok in H as ([] & _ & H); by eapply IH.
Qed.

Lemma tomorrow_loop_returned (self : GTFSParser) (tomorrow : Z)
    (deps : list departure) (acc m : by_line) (dep : departure) :
  tomorrow_loop self tomorrow deps acc = Ok m →
  dep ∈ deps →
  ∃ b, service_is_active_on_date self (dep_service_id dep) tomorrow = Ok b.
Proof.
  revert acc. induction deps as [|d deps IH]; simpl; intros acc H Hin;
    [by apply elem_of_nil in Hin|].
  apply bind_Ok in H as (b & Hb & H).
  apply elem_of_cons in Hin as [-> | Hin]; [eauto|].
  destruct b; by eapply IH.
Qed.

(** X13.  One service that the resolver cannot read takes the whole stop
    down: [get_next_departures] asks the resolver about tomorrow for every
    stop time of the stop that parses, whatever its line and its time of
    day, and about today for those not before [now]; if the resolver raises
    for one of them, the query raises and no line of the stop gets a
    list. *)
Theorem unreadable_service_fails_the_stop (self : GTFSParser) (now : Z)
    (stop_id : string) (stop_times_table : list Row) (trips_table : pydict)
    (departures_all : list departure) (dep : departure) :
  stop_times self = Some stop_times_table →
  trips self = Some trips_table →
  for_each (stop_time_departure trips_table (now / DAY_MICROS) stop_id)
           stop_times_table = Ok departures_all →
  dep ∈ departures_all →
  resolver_raises self (dep_service_id dep) (now / DAY_MICROS + 1)
  ∨ (now ≤ dep_datetime dep
     ∧ resolver_raises self (dep_service_id dep) (now / DAY_MICROS)) →
  ∀ results, get_next_departures self now stop_id ≠ Ok results.
Proof.
  intros Hs Ht Hall Hdep Hraises results H.
  unfold get_next_departures in H. rewrite Hs, Ht, Hall in H.
  cbn [mbind result_bind] in H.
  apply bind_Ok in H as (today_map & Htoday & H).
  apply bind_Ok in H as (tomorrow_map & Htomorrow & _).
  apply (elem_of_sort_by dep_datetime) in Hdep.
  destruct Hraises as [[e He] | [Hnow [e He]]].
  - destruct (tomorrow_loop_returned _ _ _ _ _ _ Htomorrow Hdep) as [b Hb]. congruence.
  - destruct (future_today_returned _ _ _ _ _ _ _ Htoday Hdep Hnow) as [b Hb]. congruence.
Qed.

Lemma unreadable_service_fails_the_stop_witness :
  ¬ ∃ results,
      get_next_departures (set_calendar_dates [] (set_calendar
         [row_of [("service_id", "S"); ("start_date", "2024-01-01");
                  ("end_date", "20241231")]] idle_line))
        (at_time 2024 3 14 23 55 0) "X" = Ok results.
Proof.
  intros [results H]. revert H.
  apply (unreadable_service_fails_the_stop _ (at_time 2024 3 14 23 55 0) "X"
           [stop_time_row "T1" "X" "06:00:00"] [trip_row "T1" "7" "Dworzec" "S"]
           [ {| dep_line := Some "7"; dep_direction := "Dworzec";
                dep_service_id := Some "S"; dep_departure_time := "06:00:00";
                dep_datetime := at_time 2024 3 14 6 0 0 |} ]
           {| dep_line := Some "7"; dep_direction := "Dworzec";
              dep_service_id := Some "S"; dep_departure_time := "06:00:00";
              dep_datetime := at_time 2024 3 14 6 0 0 |}).
  - reflexivity.
  - reflexivity.
  - vm_compute. reflexivity.
  - left.
  - left. exists ValueError. vm_compute. reflexivity.
Defined.

(** ** Rows of other services and dates *)

(** X14.  The verdict for a service and a date reads only the rows of that
    service: a [calendar_dates] row of another service or another date, and
    a [calendar] row of another service, can be put anywhere into the
    tables without changing it. *)
Theorem rows_of_others_do_not_matter (self : GTFSParser) (service_id : option string)
    (check_date : Z) (pre post cpre cpost : list Row) (row crow : Row) :
  calendar_dates self = Some (pre ++ post) →
  calendar self = Some (cpre ++ cpost) →
  ¬ is_exception_for service_id check_date row →
  ¬ is_calendar_of service_id crow →
  service_is_active_on_date
    (set_calendar_dates (pre ++ row :: post)
       (set_calendar (cpre ++ crow :: cpost) self))
    service_id check_date
  = service_is_active_on_date self service_id check_date.
Proof.
  intros Hd Hc Hrow Hcrow. unfold service_is_active_on_date.
  rewrite Hd, Hc. cbn [set_calendar_dates set_calendar calendar calendar_dates].
  cbn [data_item mbind result_bind].
  assert (matching_exceptions service_id (strftime_Ymd check_date) (pre ++ row :: post)
          = matching_exceptions service_id (strftime_Ymd check_date) (pre ++ post)) as ->.
  { unfold matching_exceptions. rewrite !filter_app. f_equal.
    by rewrite filter_cons_False. }
  assert (calendar_rows service_id (cpre ++ crow :: cpost)
          = calendar_rows service_id (cpre ++ cpost)) as ->.
  { unfold calendar_rows. rewrite !filter_app. f_equal.
    by rewrite filter_cons_False. }
  reflexivity.
Qed.

Lemma rows_of_others_do_not_matter_witness :
  service_is_active_on_date
    (set_calendar_dates [exception_row "T" "20240314" "2"; exception_row "S" "20240315" "2"]
       (set_calendar [never_2024 "T"; weekdays_2024 "S"] scenario_A))
    (Some "S") (ymd2ord 2024 3 14)
  = service_is_active_on_date scenario_A (Some "S") (ymd2ord 2024 3 14).
Proof.
  apply (rows_of_others_do_not_matter scenario_A (Some "S") (ymd2ord 2024 3 14)
           [] [exception_row "S" "20240315" "2"] [] [weekdays_2024 "S"]
           (exception_row "T" "20240314" "2") (never_2024 "T")).
  - reflexivity.
  - reflexivity.
  - intros [H _]. vm_compute in H. discriminate.
  - intros H. vm_compute in H. discriminate.
Defined.

(** ** A feed without calendar data *)

Lemma no_calendar_data_inactive (self : GTFSParser) (service_id : option string)
    (check_date : Z) :
  calendar self = Some [] → calendar_dates self = Some [] →
  service_is_active_on_date self service_id check_date = Ok false.
Proof.
  intros Hc Hd. unfold service_is_active_on_date. by rewrite Hc, Hd.
Qed.

(** X15.  Without calendar data nothing is shown.  When the calendar table
    and the exceptions table are both empty, every service is inactive on
    every date, [get_next_departures] returns the empty mapping whenever it
    returns, and [get_departures_for_week] returns the empty list once a
    trips table is loaded.  That is the state a successful load leaves when
    the local calendar file and the exceptions member are both absent. *)
Theorem without_calendar_data_nothing_runs :
  (∀ self : GTFSParser,
     calendar self = Some [] →
     calendar_dates self = Some [] →
     (∀ service_id check_date,
        service_is_active_on_date self service_id check_date = Ok false)
     ∧ (∀ now stop_id results,
          get_next_departures self now stop_id = Ok results → results = ∅)
     ∧ (∀ utcoffset capitalize now_today now line stop_id,
          is_Some (trips self) →
          get_departures_for_week utcoffset capitalize self now_today now line stop_id
          = Ok []))
  ∧ (∀ (env : Env) (other self : GTFSParser) (z : gmap string (option (list Row))),
       load_data env other = (true, self) →
       calendar_file env = None →
       gtfs_file env = Some (Some z) →
       z !! "calendar_dates.txt" = None →
       calendar self = Some [] ∧ calendar_dates self = Some []).
Proof.
  split.
  - intros self Hc Hd. split_and!.
    + intros. by apply no_calendar_data_inactive.
    + intros now stop_id results H.
      destruct (stop_times self) as [stop_times_table|] eqn:Hs;
        [|rewrite get_next_departures_not_loaded in H by auto; congruence].
      destruct (trips self) as [trips_table|] eqn:Ht;
        [|rewrite get_next_departures_not_loaded in H by auto; congruence].
      destruct (get_next_departures_lookup _ _ _ _ _ _ Hs Ht H)
        as (departures_all & _ & Hres).
      apply map_eq. intros line. rewrite Hres, lookup_empty.
      assert (pool_today self now (now / DAY_MICROS) line departures_all = []) as ->.
      { apply elem_of_nil_inv. intros dep [_ (_ & _ & Ha)]%pool_today_elem_of.
        rewrite no_calendar_data_inactive in Ha by done. discriminate. }
      assert (pool_tomorrow self (now / DAY_MICROS + 1) line departures_all = []) as ->.
      { apply elem_of_nil_inv.
        intros dep (dep0 & _ & [_ Ha] & _)%pool_tomorrow_elem_of.
        rewrite no_calendar_data_inactive in Ha by done. discriminate. }
      reflexivity.
    + intros utcoffset capitalize now_today now line stop_id [trips_table Ht].
      apply (week_schedule_idle _ _ _ _ _ _ _ trips_table Ht).
      intros. by apply no_calendar_data_inactive.
  - intros env other self z Hload Hcal Hz Hmember.
    destruct (load_data_success env other self Hload)
      as (z' & stops_rows & stop_times_rows & trips_rows & stops_dict & trips_dict
          & Hz' & _ & _ & _ & _ & _ & ->).
    rewrite Hz in Hz'. injection Hz' as <-.
    cbn [calendar calendar_dates]. by rewrite Hcal, Hmember.
Qed.

Lemma without_calendar_data_nothing_runs_witness :
  service_is_active_on_date (load_data empty_tables_env no_tables).2
    (Some "S") (ymd2ord 2024 3 14) = Ok false.
Proof.
  destruct without_calendar_data_nothing_runs as [nothing after_load].
  destruct (load_data empty_tables_env no_tables) as [flag self] eqn:Hload.
  assert (flag = true) as -> by (vm_compute in Hload; congruence).
  destruct (after_load empty_tables_env no_tables self
              (list_to_map [("stops.txt", Some []); ("stop_times.txt", Some []);
                            ("trips.txt", Some [])]) Hload)
    as [Hc Hd]; [reflexivity | reflexivity | vm_compute; reflexivity |].
  destruct (nothing self Hc Hd) as [inactive _].
  apply inactive.
Defined.

(** ** The daily update *)

Lemma get_random_update_time_seconds (random_seconds : Z) :
  0 ≤ random_seconds < 86400 →
  get_random_update_time random_seconds = random_seconds * MICROS.
Proof.
  intros Hr. unfold get_random_update_time. symmetry.
  apply (Z.mod_unique_pos _ _ 1); unfold DAY_MICROS, MICROS; lia.
Qed.

(** X16.  The daily update is always planned strictly in the future and at
    most one day ahead, at the drawn time of day, which lies between
    00:00:10 and 03:59:00: the target is the first datetime after [now]
    (the day of [now], or the next day when that time has passed or is
    [now]) whose time of day is the draw, and the delay is the time from
    [now] to it. *)
Theorem update_planned_for_next_small_hours (now random_seconds : Z) :
  10 ≤ random_seconds ≤ 14340 →
  let target_datetime := (plan_update now random_seconds).1 in
  let delay := (plan_update now random_seconds).2 in
  time_of target_datetime = random_seconds * MICROS
  ∧ 10 * MICROS ≤ time_of target_datetime ≤ (3 * 3600 + 59 * 60) * MICROS
  ∧ now < target_datetime ≤ now + DAY_MICROS
  ∧ target_datetime - DAY_MICROS ≤ now
  ∧ (date_of target_datetime = date_of now
     ∨ date_of target_datetime = date_of now + 1)
  ∧ delay = target_datetime - now
  ∧ 0 < delay ≤ DAY_MICROS.
Proof.
  intros Hr. unfold plan_update.
  rewrite get_random_update_time_seconds by lia.
  cbn [fst snd].
  pose proof day_micros_pos as Hpos.
  pose proof (now_before_tomorrow now) as Hnext.
  pose proof (Z.mod_pos_bound now DAY_MICROS Hpos) as Hmod.
  pose proof (Z.div_mod now DAY_MICROS ltac:(lia)) as Hdm.
  assert (0 ≤ random_seconds * MICROS < DAY_MICROS) as Hb
    by (unfold DAY_MICROS, MICROS; lia).
  assert (MICROS = 1000000) as HM by reflexivity.
  destruct (Z.leb_spec (now / DAY_MICROS * DAY_MICROS + random_seconds * MICROS) now)
    as [Hpast|Hfuture].
  - replace (now / DAY_MICROS * DAY_MICROS + random_seconds * MICROS + 1 * DAY_MICROS)
      with ((now / DAY_MICROS + 1) * DAY_MICROS + random_seconds * MICROS) by lia.
    destruct (date_time_of (now / DAY_MICROS + 1) _ Hb) as [Hdate Htime].
    rewrite Htime, Hdate. unfold date_of. split_and!; lia.
  - destruct (date_time_of (now / DAY_MICROS) _ Hb) as [Hdate Htime].
    rewrite Htime, Hdate. unfold date_of. split_and!; lia.
Qed.

Lemma update_planned_for_next_small_hours_witness :
  at_time 2024 3 14 23 55 0 < (plan_update (at_time 2024 3 14 23 55 0) 600).1
  ≤ at_time 2024 3 14 23 55 0 + DAY_MICROS.
Proof.
  destruct (update_planned_for_next_small_hours (at_time 2024 3 14 23 55 0) 600)
    as (_ & _ & Hfuture & _); [lia | exact Hfuture].
Defined.

(** The draw 600 asked at 23:55 on 2024-03-14 plans the update for 00:10 on
    the next day, fifteen minutes later. *)
Example update_planned_after_midnight :
  plan_update (at_time 2024 3 14 23 55 0) 600
  = (at_time 2024 3 15 0 10 0, 15 * 60 * MICROS).
Proof. vm_compute. reflexivity. Qed.

(** ** The sensors *)

Lemma next_departures_list_sorted (self : GTFSParser) (now : Z) (stop_id : string)
    (results : by_line) (line : option string) (deps : list departure) :
  get_next_departures self now stop_id = Ok results →
  results !! line = Some deps →
  deps ≠ []
  ∧ StronglySorted (key_le dep_datetime) deps
  ∧ ∀ dep, dep ∈ deps → now ≤ dep_datetime dep ∧ dep_line dep = line.
Proof.
  intros H Hline.
  destruct (stop_times self) as [stop_times_table|] eqn:Hs;
    [|rewrite get_next_departures_not_loaded in H by auto;
      injection H as <-; by rewrite lookup_empty in Hline].
  destruct (trips self) as [trips_table|] eqn:Ht;
    [|rewrite get_next_departures_not_loaded in H by auto;
      injection H as <-; by rewrite lookup_empty in Hline].
  split_and!.
  - destruct (get_next_departures_lookup _ _ _ _ _ _ Hs Ht H) as (all & _ & Hres).
    rewrite Hres in Hline. unfold nonempty in Hline.
    destruct (take 2 _); [discriminate|]. by injection Hline as <-.
  - destruct (get_next_departures_lookup _ _ _ _ _ _ Hs Ht H) as (all & Hall & Hres).
    rewrite Hres in Hline.
    pose proof (pools_sorted self now line all
                  (λ dep Hdep, departures_all_today _ _ _ _ _ _ Hall Hdep)) as Hsorted.
    set (pools := pool_today self now (now / DAY_MICROS) line all
                  ++ pool_tomorrow self (now / DAY_MICROS + 1) line all) in *.
    assert (deps = take 2 pools) as ->.
    { unfold nonempty in Hline. destruct (take 2 pools); congruence. }
    rewrite <- (take_drop 2 pools) in Hsorted.
    by apply StronglySorted_app_1_l in Hsorted.
  - intros dep Hin.
    destruct (next_departures_entry _ _ _ _ _ _ _ _ _ Hs Ht H Hline Hin)
      as (all & Hall & [[Hdep (Hl & Hnow & _)] | (dep0 & Hdep0 & [Hl _] & ->)]).
    + by split.
    + pose proof (departures_all_today _ _ _ _ _ _ Hall Hdep0) as Hday.
      rewrite (shift_to_datetime _ (now / DAY_MICROS)) by exact Hday.
      pose proof (now_before_tomorrow now). split; [lia | exact Hl].
Qed.

Section sensors.
Variable utcoffset : Z → Z.
Variable capitalize : string → string.

(** X17.  A refresh either leaves every sensor alone or rewrites every
    registered one.  If the query raises, so does the refresh.  If the query
    finds no departure on any line, the sensors are left exactly as they
    were, with whatever they showed before.  Otherwise each sensor keeps its
    place, its line and its registration; one that is not registered is
    left as it was, and a registered one whose line has no list is cleared:
    its state and its five attributes become [None]. *)
Theorem refresh_leaves_or_rewrites (parser : GTFSParser) (now : Z)
    (stop_id : string) (sensors : list BusSensor) :
  (∀ e, get_next_departures parser now stop_id = Raise e →
        update_sensors utcoffset capitalize parser now stop_id sensors = Raise e)
  ∧ (get_next_departures parser now stop_id = Ok ∅ →
     update_sensors utcoffset capitalize parser now stop_id sensors = Ok sensors)
  ∧ (∀ results,
       get_next_departures parser now stop_id = Ok results →
       results ≠ ∅ →
       ∃ sensors',
         update_sensors utcoffset capitalize parser now stop_id sensors = Ok sensors'
         ∧ length sensors' = length sensors
         ∧ ∀ i sensor,
             sensors !! i = Some sensor →
             ∃ sensor',
               sensors' !! i = Some sensor'
               ∧ sensor_line sensor' = sensor_line sensor
               ∧ sensor_registered sensor' = sensor_registered sensor
               ∧ (sensor_registered sensor = false → sensor' = sensor)
               ∧ (sensor_registered sensor = true →
                  results !! sensor_line sensor = None →
                  sensor_state sensor' = None
                  ∧ sensor_bushour sensor' = None
                  ∧ sensor_nextbustime sensor' = None
                  ∧ sensor_nextbushour sensor' = None
                  ∧ sensor_direction_first sensor' = None
                  ∧ sensor_direction_second sensor' = None)).
Proof.
  unfold update_sensors. split_and!.
  - by intros e ->.
  - intros ->. cbn [mbind result_bind]. by rewrite decide_True.
  - intros results -> Hne. cbn [mbind result_bind]. rewrite decide_False by done.
    eexists. split; [reflexivity|]. split; [by rewrite length_fmap|].
    intros i sensor Hi. exists (refresh_sensor utcoffset capitalize results sensor).
    split; [by rewrite list_lookup_fmap, Hi|].
    unfold refresh_sensor. destruct (sensor_registered sensor) eqn:Hreg.
    + split_and!.
      * by destruct (default [] _) as [|first [|second rest]].
      * by destruct (default [] _) as [|first [|second rest]].
      * discriminate.
      * intros _ ->. by split_and!.
    + split_and!; try done.
Qed.

(** X18.  After a refresh a registered sensor shows the next departures of
    its own line: its state is the zoned ISO form of the first entry of the
    line's list, a departure of that line; its hour and direction are those
    of that entry; the next-bus attributes are those of the second entry,
    and they are [None] exactly when the list has one entry.  On wall-clock
    readings, which is how the code compares and sorts the datetimes, the
    first entry is not before [now] and not after the second.  As instants
    the first entry is not before [now] when its UTC offset is not greater
    than the offset [now] carries, and not after the second when the two
    entries carry the same offset; across a change of the clocks the order
    of the instants can be the other one. *)
Theorem sensor_shows_next_departures (parser : GTFSParser) (now : Z)
    (stop_id : string) (sensors : list BusSensor) (results : by_line)
    (i : nat) (sensor : BusSensor) (deps : list departure) :
  get_next_departures parser now stop_id = Ok results →
  sensors !! i = Some sensor →
  sensor_registered sensor = true →
  results !! sensor_line sensor = Some deps →
  ∃ sensors' sensor' first,
    update_sensors utcoffset capitalize parser now stop_id sensors = Ok sensors'
    ∧ sensors' !! i = Some sensor'
    ∧ head deps = Some first
    ∧ dep_line first = sensor_line sensor
    ∧ now ≤ dep_datetime first
    ∧ (∀ now_offset : Z,
         utcoffset (dep_datetime first) ≤ now_offset →
         now - now_offset ≤ instant (isoformat utcoffset (dep_datetime first)))
    ∧ sensor_state sensor' = Some (isoformat utcoffset (dep_datetime first))
    ∧ sensor_bushour sensor' = Some (strftime_HM (dep_datetime first))
    ∧ sensor_direction_first sensor' = Some (capitalize (dep_direction first))
    ∧ match deps !! 1%nat with
      | Some second =>
          dep_datetime first ≤ dep_datetime second
          ∧ (utcoffset (dep_datetime first) = utcoffset (dep_datetime second) →
             instant (isoformat utcoffset (dep_datetime first))
             ≤ instant (isoformat utcoffset (dep_datetime second)))
          ∧ sensor_nextbustime sensor' = Some (strftime_YmdHM (dep_datetime second))
          ∧ sensor_nextbushour sensor' = Some (strftime_HM (dep_datetime second))
          ∧ sensor_direction_second sensor'
            = Some (capitalize (dep_direction second))
      | None =>
          sensor_nextbustime sensor' = None
          ∧ sensor_nextbushour sensor' = None
          ∧ sensor_direction_second sensor' = None
      end.
Proof.
  intros Hres Hi Hreg Hline.
  destruct (next_departures_list_sorted _ _ _ _ _ _ Hres Hline)
    as (Hne & Hsorted & Hentries).
  assert (results ≠ ∅) as Hresults
    by (intros ->; by rewrite lookup_empty in Hline).
  unfold update_sensors. rewrite Hres. cbn [mbind result_bind].
  rewrite decide_False by done.
  destruct deps as [|first rest]; [done|].
  exists (refresh_sensor utcoffset capitalize results <$> sensors),
    (refresh_sensor utcoffset capitalize results sensor), first.
  destruct (Hentries first) as [Hnow Hl]; [left|].
  split; [reflexivity|]. split; [by rewrite list_lookup_fmap, Hi|].
  split; [reflexivity|]. split; [exact Hl|]. split; [exact Hnow|].
  split.
  { intros now_offset Hoffset. unfold instant, isoformat. cbn [wall utcoff]. lia. }
  unfold refresh_sensor. rewrite Hreg, Hline. cbn [default].
  destruct rest as [|second rest]; cbn.
  - by split_and!.
  - apply StronglySorted_cons in Hsorted as [Hfirst _].
    apply Forall_cons in Hfirst as [Hle _]. unfold key_le in Hle.
    split_and!; try done.
    intros Hoffset. unfold instant. cbn. lia.
Qed.
End sensors.

Lemma refresh_leaves_or_rewrites_witness :
  update_sensors central_european_time (λ s, s) no_tables 0 "X"
    [ {| sensor_line := Some "7"; sensor_registered := true;
         sensor_state := Some {| wall := 0; utcoff := 0 |};
         sensor_bushour := Some "00:00"; sensor_nextbustime := None;
         sensor_nextbushour := None; sensor_direction_first := Some "Dworzec";
         sensor_direction_second := None |} ]
  = Ok [ {| sensor_line := Some "7"; sensor_registered := true;
            sensor_state := Some {| wall := 0; utcoff := 0 |};
            sensor_bushour := Some "00:00"; sensor_nextbustime := None;
            sensor_nextbushour := None; sensor_direction_first := Some "Dworzec";
            sensor_direction_second := None |} ].
Proof.
  destruct (refresh_leaves_or_rewrites central_european_time (λ s, s) no_tables 0 "X"
              [ {| sensor_line := Some "7"; sensor_registered := true;
                   sensor_state := Some {| wall := 0; utcoff := 0 |};
                   sensor_bushour := Some "00:00"; sensor_nextbustime := None;
                   sensor_nextbushour := None; sensor_direction_first := Some "Dworzec";
                   sensor_direction_second := None |} ]) as (_ & stale & _).
  apply stale. reflexivity.
Defined.

Lemma sensor_shows_next_departures_witness :
  ∃ sensors' sensor',
    update_sensors central_european_time (λ s, s) scenario_B (at_time 2024 3 14 23 55 0) "X"
      [ {| sensor_line := Some "7"; sensor_registered := true;
           sensor_state := None; sensor_bushour := None; sensor_nextbustime := None;
           sensor_nextbushour := None; sensor_direction_first := None;
           sensor_direction_second := None |} ] = Ok sensors'
    ∧ sensors' !! 0%nat = Some sensor'
    ∧ sensor_state sensor'
      = Some (isoformat central_european_time (dep_datetime (tomorrow_0600 "D15"))).
Proof.
  destruct (sensor_shows_next_departures central_european_time (λ s, s) scenario_B (at_time 2024 3 14 23 55 0) "X"
              [ {| sensor_line := Some "7"; sensor_registered := true;
                   sensor_state := None; sensor_bushour := None;
                   sensor_nextbustime := None; sensor_nextbushour := None;
                   sensor_direction_first := None; sensor_direction_second := None |} ]
              (returned (get_next_departures scenario_B (at_time 2024 3 14 23 55 0) "X"))
              0%nat
              {| sensor_line := Some "7"; sensor_registered := true;
                 sensor_state := None; sensor_bushour := None;
                 sensor_nextbustime := None; sensor_nextbushour := None;
                 sensor_direction_first := None; sensor_direction_second := None |}
              [tomorrow_0600 "D15"])
    as (sensors' & sensor' & first & Hupdate & Hi & Hhead & _ & _ & _ & Hstate & _).
  - exact get_next_departures_returned_scenario_B.
  - reflexivity.
  - reflexivity.
  - vm_compute. reflexivity.
  - exists sensors', sensor'. injection Hhead as <-. split_and!; assumption.
Defined.

(** On the night the clocks go forward, asked at 01:00 (+01:00): the sensor
    of line 7 shows 02:30 (+01:00), the instant 01:30 UTC, as its state and
    03:10 as the next bus, which is at +02:00, the instant 01:10 UTC. *)
Example sensor_on_spring_forward :
  update_sensors europe_warsaw_2024 (λ s, s) (night_line "20240331")
    (at_time 2024 3 31 1 0 0) "X"
    [ {| sensor_line := Some "7"; sensor_registered := true;
         sensor_state := None; sensor_bushour := None; sensor_nextbustime := None;
         sensor_nextbushour := None; sensor_direction_first := None;
         sensor_direction_second := None |} ]
  = Ok [ {| sensor_line := Some "7"; sensor_registered := true;
            sensor_state := Some {| wall := at_time 2024 3 31 2 30 0;
                                    utcoff := 3600 * MICROS |};
            sensor_bushour := Some "02:30";
            sensor_nextbustime := Some "2024-03-31 03:10";
            sensor_nextbushour := Some "03:10";
            sensor_direction_first := Some "Dworzec";
            sensor_direction_second := Some "Dworzec" |} ]
  ∧ instant (isoformat europe_warsaw_2024 (at_time 2024 3 31 3 10 0))
    < instant {| wall := at_time 2024 3 31 2 30 0; utcoff := 3600 * MICROS |}.
Proof.
  split; [|vm_compute; reflexivity].
  unfold update_sensors.
  destruct (get_next_departures (night_line "20240331") (at_time 2024 3 31 1 0 0) "X")
    as [results|err] eqn:Hres; vm_compute in Hres; [|discriminate].
  injection Hres as <-. vm_compute. reflexivity.
Qed.
